(** * Maastricht cafe list: a shallow embedding of [main.py] and [forms.py]

    The Flask handlers of [main.py] are embedded as functions in a small
    state-and-exception monad over the three SQLAlchemy tables; the WTForms
    classes of [forms.py] are embedded as ordered field tables that are bound
    to the submitted form data and looked up by attribute name, as Python
    does.  The second half of the file states and proves the properties of
    the authorization decorators, of form validation and of the handlers. *)

From Stdlib Require Import ZArith String Ascii.
From stdpp Require Import base option list gmap strings fin_maps.

Local Open Scope string_scope.
Local Open Scope Z_scope.
Local Open Scope list_scope.

(** ** Python values and exceptions *)

(** The values a WTForms field or a table column holds. *)
Inductive pydata :=
| PyNone
| PyStr (s : string)
| PyInt (n : Z)
| PyBool (b : bool).

(** Python truthiness: [None], [""], [0] and [False] are falsy. *)
Definition truthy (d : pydata) : bool :=
  match d with
  | PyNone => false
  | PyStr s => negb (String.eqb s "")
  | PyInt n => negb (n =? 0)
  | PyBool b => b
  end.

(** [a or b] on values. *)
Definition py_or (a b : pydata) : pydata := if truthy a then a else b.

(** The exceptions the handlers can let escape. *)
Inductive exn :=
| AttributeError (obj attr : string)
| IntegrityError (detail : string)
| SMTPException (detail : string)
| OSError (detail : string).

(** Characters are code points below 256; these are the ones Python's
    [str.strip()] and [int()] treat as white space. *)
Definition is_space (c : ascii) : bool :=
  let n := Z.of_N (N_of_ascii c) in
  ((9 <=? n) && (n <=? 13)) || ((28 <=? n) && (n <=? 32))
  || (n =? 133) || (n =? 160).

Fixpoint lstrip (s : string) : string :=
  match s with
  | String c r => if is_space c then lstrip r else s
  | EmptyString => EmptyString
  end.

Fixpoint rstrip (s : string) : string :=
  match s with
  | String c r =>
      let r' := rstrip r in
      if is_space c && String.eqb r' "" then "" else String c r'
  | EmptyString => EmptyString
  end.

(** [s.strip()] *)
Definition strip (s : string) : string := rstrip (lstrip s).

Definition digit_of (c : ascii) : option Z :=
  let n := Z.of_N (N_of_ascii c) in
  if (48 <=? n) && (n <=? 57) then Some (n - 48) else None.

(** Decimal digits with single underscores allowed between digits;
    [acc] is the value read so far, [after_digit] tells whether the previous
    character was a digit. *)
Fixpoint py_digits (s : string) (acc : Z) (after_digit : bool) : option Z :=
  match s with
  | EmptyString => if after_digit then Some acc else None
  | String c r =>
      match digit_of c with
      | Some d => py_digits r (10 * acc + d) true
      | None =>
          if Ascii.eqb c "_"%char && after_digit then py_digits r acc false
          else None
      end
  end.

(** [int(s)] for a [str] argument: [None] stands for [ValueError]. *)
Definition py_int (s : string) : option Z :=
  match strip s with
  | String "-"%char r => Z.opp <$> py_digits r 0 false
  | String "+"%char r => py_digits r 0 false
  | t => py_digits t 0 false
  end.

(** ** The tables of [main.py] *)

Module Cafe.
(** A row of [cafelist]; the primary key [id] is the key of the table. *)
Record t := mk {
  contributor_id : option Z;
  contributor_name : pydata;
  name : pydata;
  summary : pydata;
  date : pydata;
  body : pydata;
  img_url : pydata;
  rating : pydata }.
End Cafe.

Module User.
(** A row of [users]. *)
Record t := mk {
  email : pydata;
  password : pydata;
  name : pydata }.
End User.

Module Comment.
(** A row of [comments]. *)
Record t := mk {
  text : pydata;
  author_id : option Z;
  cafe_id : option Z }.
End Comment.

(** The database: one finite map per table, keyed by primary key. *)
Record DB := mkDB {
  cafelist : gmap Z Cafe.t;
  users : gmap Z User.t;
  comments : gmap Z Comment.t }.

(** What flask_login's [current_user] resolves to: the row [load_user] found
    for the identifier in the session, or the [AnonymousUserMixin] object. *)
Inductive current_user_t :=
| AnonymousUserMixin
| LoggedIn (id : Z) (u : User.t).

(** A sent mail: sender, recipient, message. *)
Record mail := mkMail {
  from_addr : pydata;
  to_addrs : pydata;
  msg : string }.

(** State threaded through a request: the committed database, the flashed
    messages and the mails handed to the relay. *)
Record state := mkState {
  db : DB;
  flashes : list string;
  outbox : list mail }.

(** ** Responses and the handler monad *)

(** Keyword arguments handed to a template. *)
Inductive tval :=
| TBool (b : bool)
| TUser (u : current_user_t)
| TFields (f : list (string * pydata))
| TCafe (id : Z) (c : Cafe.t).

Inductive response :=
| Render (template : string) (kwargs : list (string * tval))
| Redirect (endpoint : string) (args : list (string * Z)).

(** A computation returns, aborts with an HTTP status ([abort(403)],
    [get_or_404]) or raises a Python exception. *)
Inductive outcome (A : Type) :=
| Ok (a : A)
| Abort (status : Z)
| Raise (e : exn).
Arguments Ok {A} a.
Arguments Abort {A} status.
Arguments Raise {A} e.

Definition M (A : Type) : Type := state -> outcome A * state.

#[global] Instance M_ret : MRet M := fun A a s => (Ok a, s).

#[global] Instance M_bind : MBind M := fun A B k m s =>
  match m s with
  | (Ok a, s') => k a s'
  | (Abort c, s') => (Abort c, s')
  | (Raise e, s') => (Raise e, s')
  end.

Definition abort {A} (status : Z) : M A := fun s => (Abort status, s).
Definition raise {A} (e : exn) : M A := fun s => (Raise e, s).
Definition get_db : M DB := fun s => (Ok (db s), s).
Definition put_db (d : DB) : M unit :=
  fun s => (Ok tt, mkState d (flashes s) (outbox s)).
Definition flash (m : string) : M unit :=
  fun s => (Ok tt, mkState (db s) (flashes s ++ [m]) (outbox s)).

(** The status line Flask answers with: an uncaught exception is a 500. *)
Definition http_status (r : outcome response) : Z :=
  match r with
  | Ok (Render _ _) => 200
  | Ok (Redirect _ _) => 302
  | Abort c => c
  | Raise _ => 500
  end.

(** ** The outside world of a request *)

(** An SMTP session as [send_email] drives it: each step answers [None] when
    it completes and [Some e] when it raises [e].  [quit] is the QUIT sent by
    [SMTP.__exit__], which swallows a dropped connection and lets any other
    failure escape. *)
Record smtp_server := mkSMTP {
  connect : string -> option exn;
  starttls : option exn;
  login : pydata -> pydata -> option exn;
  sendmail : pydata -> pydata -> string -> option exn;
  quit : option exn }.

(** What the process reads from outside the repository: the regular
    expression and host check of [wtforms.validators.URL], the two mail
    settings of [os.environ], the mail relay, and today's date as
    [date.today().strftime("%B %d, %Y")] prints it. *)
Record environ := mkEnviron {
  URL_matches : string -> bool;
  MAIL_ADDRESS : pydata;
  MAIL_APP_PW : pydata;
  smtp : smtp_server;
  today : string }.

Inductive http_method := GET | POST.

(** A request: its method, the submitted form as an ordered multi-dict, and
    whether Flask-WTF accepts its CSRF token. *)
Record request := mkRequest {
  method : http_method;
  form : list (string * string);
  csrf_valid : bool }.

(** [formdata.getlist(name)[0]], when the list is not empty. *)
Fixpoint getfirst (formdata : list (string * string)) (key : string)
  : option string :=
  match formdata with
  | [] => None
  | (k, v) :: rest => if String.eqb k key then Some v else getfirst rest key
  end.

(** ** WTForms: fields, validators, binding and validation *)

Inductive field_type :=
| StringField
| IntegerField
| CKEditorField
| PasswordField
| SubmitField
| CSRFTokenField.

Inductive validator :=
| DataRequired
| URL
| NumberRange (min max : Z) (message : string).

(** A field as declared in a form class. *)
Record unbound_field := Field {
  ftype : field_type;
  label : string;
  validators : list validator }.

(** A field of a form instance: its declaration and its [data]. *)
Record field := mkField {
  decl : unbound_field;
  data : pydata }.

Definition form_class : Type := list (string * unbound_field).
Definition form_t : Type := list (string * field).

(** [IntegerField.process_data]: [int(value)], [None] when it fails. *)
Definition int_of (d : pydata) : pydata :=
  match d with
  | PyNone => PyNone
  | PyInt n => PyInt n
  | PyBool b => PyInt (if b then 1 else 0)
  | PyStr s => match py_int s with Some n => PyInt n | None => PyNone end
  end.

(** [Field.process]: [process_data] on the keyword value, then, when form
    data was submitted, [process_formdata] on the raw value. *)
Definition process_field (t : field_type) (initial : pydata)
    (submitted : bool) (raw : option string) : pydata :=
  match t with
  | StringField | CKEditorField | PasswordField | CSRFTokenField =>
      match submitted, raw with
      | true, Some v => PyStr v
      | _, _ => initial
      end
  | IntegerField =>
      match submitted, raw with
      | true, Some v => int_of (PyStr v)
      | _, _ => int_of initial
      end
  | SubmitField =>
      match submitted, raw with
      | true, Some v => PyBool (negb (String.eqb v "false" || String.eqb v ""))
      | true, None => PyBool false
      | false, _ => PyBool (truthy initial)
      end
  end.

Fixpoint kwarg (kwargs : list (string * pydata)) (key : string) : pydata :=
  match kwargs with
  | [] => PyNone
  | (k, v) :: rest => if String.eqb k key then v else kwarg rest key
  end.

(** [request.method] is one that submits a form. *)
Definition is_submitted (req : request) : bool :=
  match method req with POST => true | GET => false end.

(** Instantiating a form class: Flask-WTF hands the request's form data to
    WTForms only when the request is a submission. *)
Definition instantiate (cls : form_class) (kwargs : list (string * pydata))
    (req : request) : form_t :=
  (fun '(fname, uf) =>
     (fname, mkField uf (process_field (ftype uf) (kwarg kwargs fname)
                           (is_submitted req) (getfirst (form req) fname))))
  <$> cls.

(** What a validator does on a field's data. *)
Inductive verdict :=
| Passed
| ValidationError (message : string)
| StopValidation (message : string).

Definition validators_call (env : environ) (v : validator) (d : pydata)
  : verdict :=
  match v with
  | DataRequired =>
      (* if field.data and (not isinstance(field.data, str)
                            or field.data.strip()) *)
      if truthy d
         && match d with
            | PyStr s => negb (String.eqb (strip s) "")
            | _ => true
            end
      then Passed
      else StopValidation "This field is required."
  | URL =>
      (* self.regex.match(field.data or ""), then the host name check *)
      let s := match py_or d (PyStr "") with PyStr s => s | _ => "" end in
      if URL_matches env s then Passed else ValidationError "Invalid URL."
  | NumberRange lo hi message =>
      match d with
      | PyInt n =>
          if (lo <=? n) && (n <=? hi) then Passed else ValidationError message
      | _ => ValidationError message
      end
  end.

(** [Field._run_validation_chain]: the errors collected; [StopValidation]
    ends the chain. *)
Fixpoint run_validation_chain (env : environ) (vs : list validator)
    (d : pydata) : list string :=
  match vs with
  | [] => []
  | v :: rest =>
      match validators_call env v d with
      | Passed => run_validation_chain env rest d
      | ValidationError m => m :: run_validation_chain env rest d
      | StopValidation m => [m]
      end
  end.

(** [Field.validate]: no error was collected. *)
Definition field_validate (env : environ) (f : field) : bool :=
  match run_validation_chain env (validators (decl f)) (data f) with
  | [] => true
  | _ :: _ => false
  end.

(** [Form.validate]: every field is validated, the CSRF token by Flask-WTF. *)
Definition validate (env : environ) (req : request) (f : form_t) : bool :=
  forallb (fun '(_, fld) =>
             match ftype (decl fld) with
             | CSRFTokenField => csrf_valid req
             | _ => field_validate env fld
             end) f.

Definition validate_on_submit (env : environ) (req : request) (f : form_t)
  : bool :=
  is_submitted req && validate env req f.

(** The field a form instance holds under a name. *)
Fixpoint lookup_field (f : form_t) (attr : string) : option field :=
  match f with
  | [] => None
  | (k, fld) :: rest =>
      if String.eqb k attr then Some fld else lookup_field rest attr
  end.

(** [form.<attr>]: the fields of a form are its attributes; any other name
    raises [AttributeError]. *)
Definition getattr (cls_name : string) (f : form_t) (attr : string)
  : M field :=
  match lookup_field f attr with
  | Some fld => mret fld
  | None => raise (AttributeError cls_name attr)
  end.

(** ** [forms.py] *)

(** Every [FlaskForm] carries the CSRF token field of Flask-WTF, bound after
    the declared fields. *)
Definition FlaskForm : form_class :=
  [("csrf_token", Field CSRFTokenField "CSRF Token" [])].

Definition CreateCafeForm : form_class :=
  [("name", Field StringField "Cafe Name" [DataRequired]);
   ("summary",
    Field StringField "Summarize your opinion about the cafe in a few words"
      [DataRequired]);
   ("rating",
    Field IntegerField "What would you rate this cafe from 1 to 10?"
      [DataRequired; NumberRange 1 10 "Rating must be between 1 and 10."]);
   ("body",
    Field CKEditorField
      "Why did you give the cafe this rating? Be as specific as you like :)"
      [DataRequired]);
   ("img_url",
    Field StringField "Add an image of the cafe (optional)" [URL]);
   ("submit", Field SubmitField "Submit Post" [])]
  ++ FlaskForm.

Definition CommentForm : form_class :=
  [("comment_text", Field CKEditorField "Comment" [DataRequired]);
   ("submit", Field SubmitField "Submit Comment" [])]
  ++ FlaskForm.

(** ** Database access *)

#[global] Instance pydata_eq_dec : EqDecision pydata.
Proof. solve_decision. Defined.

(** [db.get_or_404(Model, id)] and [Model.query.get_or_404(id)]. *)
Definition get_or_404 {A} (table : DB -> gmap Z A) (id : Z) : M A :=
  d ← get_db;
  match table d !! id with
  | Some row => mret row
  | None => abort 404
  end.

(** The primary key the store gives a new row: one past the largest. *)
Definition next_id {A} (table : gmap Z A) : Z :=
  1 + map_fold (fun k _ acc => Z.max k acc) 0 table.

Definition is_null (d : pydata) : bool :=
  match d with PyNone => true | _ => false end.

(** Some row other than [self] already has this [name] ([unique=True]). *)
Definition name_taken (table : gmap Z Cafe.t) (self : option Z)
    (n : pydata) : bool :=
  existsb (fun '(k, c) =>
             bool_decide (Cafe.name c = n) && negb (bool_decide (self = Some k)))
          (map_to_list table).

(** The column constraints of [Cafe], checked when a row is written. *)
Definition check_cafe (table : gmap Z Cafe.t) (self : option Z)
    (c : Cafe.t) : M unit :=
  if is_null (Cafe.name c) || is_null (Cafe.summary c)
     || is_null (Cafe.date c) || is_null (Cafe.body c)
     || is_null (Cafe.rating c)
  then raise (IntegrityError "NOT NULL constraint failed")
  else if name_taken table self (Cafe.name c)
  then raise (IntegrityError "UNIQUE constraint failed: cafelist.name")
  else mret tt.

(** [db.session.add(new_cafe); db.session.commit()] *)
Definition add_commit_cafe (c : Cafe.t) : M Z :=
  d ← get_db;
  check_cafe (cafelist d) None c;;
  let id := next_id (cafelist d) in
  put_db (mkDB (<[id := c]> (cafelist d)) (users d) (comments d));;
  mret id.

(** [db.session.commit()] after the attributes of row [id] were assigned. *)
Definition update_commit_cafe (id : Z) (c : Cafe.t) : M unit :=
  d ← get_db;
  check_cafe (cafelist d) (Some id) c;;
  put_db (mkDB (<[id := c]> (cafelist d)) (users d) (comments d)).

(** [db.session.add(new_comment); db.session.commit()] *)
Definition add_commit_comment (c : Comment.t) : M Z :=
  d ← get_db;
  if is_null (Comment.text c)
  then raise (IntegrityError "NOT NULL constraint failed: comments.text")
  else
    let id := next_id (comments d) in
    put_db (mkDB (cafelist d) (users d) (<[id := c]> (comments d)));;
    mret id.

(** How a [relationship] treats the children of a deleted parent: with the
    [delete] cascade they are deleted, without it their foreign key is set
    to NULL. *)
Record relationship := mkRelationship {
  target : string;
  back_populates : string;
  cascade_delete : bool }.

(** [comments = relationship("Comment", back_populates="parent_cafe")]:
    no [cascade] argument, so the default ["save-update, merge"]. *)
Definition Cafe_comments : relationship :=
  mkRelationship "Comment" "parent_cafe" false.

Definition orphan (c : Comment.t) : Comment.t :=
  Comment.mk (Comment.text c) (Comment.author_id c) None.

Definition is_child (id : Z) (c : Comment.t) : bool :=
  bool_decide (Comment.cafe_id c = Some id).

(** [db.session.delete(cafe_to_delete); db.session.commit()] *)
Definition delete_commit_cafe (id : Z) : M unit :=
  d ← get_db;
  put_db (mkDB (delete id (cafelist d)) (users d)
            (if cascade_delete Cafe_comments
             then filter (fun kc => is_child id kc.2 = false) (comments d)
             else (fun c => if is_child id c then orphan c else c)
                    <$> comments d)).

(** ** [main.py]: the user loader and the decorators *)

Definition load_user (user_id : Z) : M User.t := get_or_404 users user_id.

(** [current_user] for a session: anonymous without an identifier, the
    loaded row otherwise. *)
Definition current_user (session : option Z) : M current_user_t :=
  match session with
  | None => mret AnonymousUserMixin
  | Some user_id => u ← load_user user_id; mret (LoggedIn user_id u)
  end.

Definition is_authenticated (cu : current_user_t) : bool :=
  match cu with AnonymousUserMixin => false | LoggedIn _ _ => true end.

(** [current_user.id]: [AnonymousUserMixin] has no such attribute. *)
Definition current_user_id (cu : current_user_t) : M Z :=
  match cu with
  | AnonymousUserMixin => raise (AttributeError "AnonymousUserMixin" "id")
  | LoggedIn id _ => mret id
  end.

(** [current_user.name] *)
Definition current_user_name (cu : current_user_t) : M pydata :=
  match cu with
  | AnonymousUserMixin => raise (AttributeError "AnonymousUserMixin" "name")
  | LoggedIn _ u => mret (User.name u)
  end.

(** flask_login's [login_required]; no [login_view] is configured, so
    [unauthorized()] aborts with 401. *)
Definition login_required (cu : current_user_t) (f : M response)
  : M response :=
  if is_authenticated cu then f else abort 401.

Definition admin_only (cu : current_user_t) (f : Z -> M response)
  : Z -> M response :=
  fun cafe_id =>
    id ← current_user_id cu;
    if negb (id =? 1) then abort 403 else f cafe_id.

(** [cafe.contributor]: the user the foreign key points to, if any. *)
Definition contributor (d : DB) (c : Cafe.t) : option (Z * User.t) :=
  cid ← Cafe.contributor_id c; u ← users d !! cid; Some (cid, u).

(** [current_user != other]: objects of one session are the same object
    exactly when they are the same row. *)
Definition user_ne (cu : current_user_t) (other : option (Z * User.t))
  : bool :=
  match cu, other with
  | LoggedIn id _, Some (id', _) => negb (id =? id')
  | _, _ => true
  end.

(** [a or b] on conditions: [b] is evaluated only when [a] is false. *)
Definition or_else (a : bool) (b : M bool) : M bool :=
  if a then mret true else b.

Definition user_can_edit_cafe (cu : current_user_t) (func : Z -> M response)
  : Z -> M response :=
  fun cafe_id =>
    cafe ← get_or_404 cafelist cafe_id;
    d ← get_db;
    denied ← or_else (user_ne cu (contributor d cafe))
               (id ← current_user_id cu; mret (negb (id =? 1)));
    if (denied : bool) then abort 403 else func cafe_id.

(** ** [main.py]: the handlers *)

Definition form_data (f : form_t) : list (string * pydata) :=
  (fun '(k, fld) => (k, data fld)) <$> f.

(** [a or b] on values, with [b] an attribute read that may raise. *)
Definition or_default (a : pydata) (b : M pydata) : M pydata :=
  if truthy a then mret a else b.

Definition show_cafe (env : environ) (cu : current_user_t) (req : request)
    (cafe_id : Z) : M response :=
  requested_cafe ← get_or_404 cafelist cafe_id;
  let comment_form := instantiate CommentForm [] req in
  let page :=
    Render "cafe.html"
      [("cafe", TCafe cafe_id requested_cafe); ("current_user", TUser cu);
       ("form", TFields (form_data comment_form))] in
  if validate_on_submit env req comment_form then
    if negb (is_authenticated cu) then
      flash "You need to login or register to comment.";;
      mret (Redirect "login" [])
    else
      comment_text ← getattr "CommentForm" comment_form "comment_text";
      author ← current_user_id cu;
      let new_comment :=
        Comment.mk (data comment_text) (Some author) (Some cafe_id) in
      add_commit_comment new_comment;;
      mret page
  else mret page.

(** The [Cafe(...)] call of [add_new_cafe]: seven keyword arguments, the
    same seven columns; [contributor] and [contributor_id] are not passed and
    stay [None]. *)
Definition new_cafe (name summary body img_url contributor_name date rating
    : pydata) : Cafe.t :=
  {| Cafe.contributor_id := None;
     Cafe.contributor_name := contributor_name;
     Cafe.name := name;
     Cafe.summary := summary;
     Cafe.date := date;
     Cafe.body := body;
     Cafe.img_url := img_url;
     Cafe.rating := rating |}.

Definition add_new_cafe (env : environ) (cu : current_user_t)
    (req : request) : M response :=
  login_required cu (
    let form := instantiate CreateCafeForm [] req in
    if validate_on_submit env req form then
      f_contributor_name ← getattr "CreateCafeForm" form "contributor_name";
      contributor_name ←
        or_default (data f_contributor_name) (current_user_name cu);
      f_name ← getattr "CreateCafeForm" form "name";
      f_summary ← getattr "CreateCafeForm" form "summary";
      f_body ← getattr "CreateCafeForm" form "body";
      f_img_url ← getattr "CreateCafeForm" form "img_url";
      f_rating ← getattr "CreateCafeForm" form "rating";
      add_commit_cafe
        (new_cafe (data f_name) (data f_summary) (data f_body)
           (data f_img_url) contributor_name (PyStr (today env))
           (data f_rating));;
      mret (Redirect "cafelist" [])
    else
      mret (Render "add-cafe.html"
              [("form", TFields (form_data form)); ("current_user", TUser cu)])).

(** The pre-populated form of [edit_cafe]. *)
Definition edit_form (d : DB) (cafe : Cafe.t) (req : request) : form_t :=
  instantiate CreateCafeForm
    [("name", Cafe.name cafe);
     ("summary", Cafe.summary cafe);
     ("img_url", Cafe.img_url cafe);
     (* no field is called author: the keyword is never read *)
     ("author",
      match contributor d cafe with
      | Some (id, _) => PyInt id
      | None => PyNone
      end);
     ("body", Cafe.body cafe);
     ("rating", Cafe.rating cafe)] req.

Definition edit_cafe (env : environ) (cu : current_user_t) (req : request)
    (cafe_id : Z) : M response :=
  login_required cu (
    cafe ← get_or_404 cafelist cafe_id;
    d ← get_db;
    let edit_form := edit_form d cafe req in
    if validate_on_submit env req edit_form then
      f_contributor_name ←
        getattr "CreateCafeForm" edit_form "contributor_name";
      contributor_name ←
        or_default (data f_contributor_name) (current_user_name cu);
      f_name ← getattr "CreateCafeForm" edit_form "name";
      f_summary ← getattr "CreateCafeForm" edit_form "summary";
      f_img_url ← getattr "CreateCafeForm" edit_form "img_url";
      f_body ← getattr "CreateCafeForm" edit_form "body";
      f_rating ← getattr "CreateCafeForm" edit_form "rating";
      update_commit_cafe cafe_id
        {| Cafe.contributor_id := Cafe.contributor_id cafe;
           Cafe.contributor_name := contributor_name;
           Cafe.name := data f_name;
           Cafe.summary := data f_summary;
           Cafe.date := Cafe.date cafe;
           Cafe.body := data f_body;
           Cafe.img_url := data f_img_url;
           Cafe.rating := data f_rating |};;
      mret (Redirect "show_cafe" [("cafe_id", cafe_id)])
    else
      mret (Render "add-cafe.html"
              [("form", TFields (form_data edit_form));
               ("is_edit", TBool true); ("current_user", TUser cu)])).

Definition delete_cafe (cu : current_user_t) : Z -> M response :=
  admin_only cu (fun cafe_id =>
    cafe_to_delete ← get_or_404 cafelist cafe_id;
    delete_commit_cafe cafe_id;;
    mret (Redirect "cafelist" [])).

(** One step of the SMTP session. *)
Definition smtp_step (r : option exn) : M unit :=
  match r with
  | None => mret tt
  | Some e => raise e
  end.

(** The [with ... as connection:] block: [SMTP.__exit__] sends QUIT whether
    or not the body raised, and an exception of its own replaces the
    body's. *)
Definition with_connection (srv : smtp_server) (body : M unit) : M unit :=
  fun s =>
    let '(r, s') := body s in
    match quit srv with
    | Some e => (Raise e, s')
    | None => (r, s')
    end.

(** The relay accepted a mail. *)
Definition delivered (m : mail) : M unit :=
  fun s => (Ok tt, mkState (db s) (flashes s) (outbox s ++ [m])).

Definition newline : string := String "010"%char "".

(** The text [send_email] builds from the four form values. *)
Definition email_text (name email phone message : string) : string :=
  String.concat ""
    ["Subject:New Message"; newline; newline; "Name: "; name; newline;
     "Email: "; email; newline; "Phone: "; phone; newline;
     "Message:"; message].

Definition send_email (env : environ) (name email phone message : string)
  : M unit :=
  let email_message := email_text name email phone message in
  smtp_step (connect (smtp env) "smtp.gmail.com");;
  with_connection (smtp env) (
    smtp_step (starttls (smtp env));;
    smtp_step (login (smtp env) (MAIL_ADDRESS env) (MAIL_APP_PW env));;
    smtp_step
      (sendmail (smtp env) (MAIL_ADDRESS env) (MAIL_APP_PW env) email_message);;
    delivered (mkMail (MAIL_ADDRESS env) (MAIL_APP_PW env) email_message)).

(** [request.form[key]]: a missing key is a 400 (BadRequestKeyError). *)
Definition form_item (req : request) (key : string) : M string :=
  match getfirst (form req) key with
  | Some v => mret v
  | None => abort 400
  end.

Definition contact (env : environ) (req : request) : M response :=
  match method req with
  | POST =>
      name ← form_item req "name";
      email ← form_item req "email";
      phone ← form_item req "phone";
      message ← form_item req "message";
      send_email env name email phone message;;
      mret (Render "contact.html" [("msg_sent", TBool true)])
  | GET => mret (Render "contact.html" [("msg_sent", TBool false)])
  end.

(** ** Who the acting user is, in the words of the policy *)

(** The acting user holds the distinguished identifier 1. *)
Definition is_super_admin (cu : current_user_t) : Prop :=
  ∃ u, cu = LoggedIn 1 u.

(** The acting user is the user the entry's foreign key names. *)
Definition is_contributor_of (cu : current_user_t) (cafe : Cafe.t) : Prop :=
  ∃ id u, cu = LoggedIn id u ∧ Cafe.contributor_id cafe = Some id.

(** The first step of the relay session that raises, as the caller of
    [send_email] sees it: a failed connection; otherwise a failed QUIT;
    otherwise the first failure inside the block. *)
Definition relay_failure (env : environ) (email_message : string)
  : option exn :=
  let srv := smtp env in
  match connect srv "smtp.gmail.com" with
  | Some e => Some e
  | None =>
      match quit srv with
      | Some e => Some e
      | None =>
          match starttls srv with
          | Some e => Some e
          | None =>
              match login srv (MAIL_ADDRESS env) (MAIL_APP_PW env) with
              | Some e => Some e
              | None =>
                  sendmail srv (MAIL_ADDRESS env) (MAIL_APP_PW env)
                    email_message
              end
          end
      end
  end.

(** ** A running scenario

    The scenario of the specification: the first registered user (the
    super-admin), Alice with identifier 2, one entry of each, and a comment
    on each entry. *)
Module Scenario.

Definition relay_up : smtp_server :=
  mkSMTP (fun _ => None) None (fun _ _ => None) (fun _ _ _ => None) None.

Definition relay_down : smtp_server :=
  mkSMTP (fun _ => Some (OSError "Network is unreachable")) None
    (fun _ _ => None) (fun _ _ _ => None) None.

(** A stand-in for the URL check, enough for the addresses used below. *)
Definition has_scheme (s : string) : bool :=
  String.prefix "http://" s || String.prefix "https://" s.

Definition env : environ :=
  mkEnviron has_scheme (PyStr "cafes@example.com") (PyStr "app-password")
    relay_up "November 03, 2026".

Definition env_relay_down : environ :=
  mkEnviron has_scheme (PyStr "cafes@example.com") (PyStr "app-password")
    relay_down "November 03, 2026".

Definition root : User.t :=
  User.mk (PyStr "root@x.com") (PyStr "pbkdf2:sha256$r") (PyStr "Root").

Definition alice : User.t :=
  User.mk (PyStr "a@x.com") (PyStr "pbkdf2:sha256$a") (PyStr "Alice").

Definition corner : Cafe.t :=
  Cafe.mk (Some 1) (PyStr "Root") (PyStr "Corner") (PyStr "cosy")
    (PyStr "October 01, 2026") (PyStr "Good coffee.")
    (PyStr "http://x.com/corner.png") (PyInt 8).

Definition joes : Cafe.t :=
  Cafe.mk (Some 2) (PyStr "Alice") (PyStr "Joe's") (PyStr "fine")
    (PyStr "October 02, 2026") (PyStr "Fine coffee.")
    (PyStr "http://x.com/joes.png") (PyInt 7).

Definition on_corner : Comment.t := Comment.mk (PyStr "Agreed") (Some 2) (Some 1).
Definition on_joes : Comment.t := Comment.mk (PyStr "Also fine") (Some 1) (Some 2).

Definition store : DB :=
  mkDB {[1 := corner; 2 := joes]} {[1 := root; 2 := alice]}
    {[1 := on_corner; 2 := on_joes]}.

Definition start : state := mkState store [] [].

(** A submission of the entry form with the given rating and contributor
    name inputs. *)
Definition entry_post (rating contributor_name : string) : request :=
  mkRequest POST
    [("name", "Bean There"); ("summary", "worth the walk");
     ("rating", rating); ("body", "Friendly and quiet.");
     ("img_url", "https://x.com/bean.png");
     ("contributor_name", contributor_name); ("submit", "Submit Post")]
    true.

Definition comment_post : request :=
  mkRequest POST [("comment_text", "Lovely place"); ("submit", "Submit Comment")]
    true.

Definition contact_post : request :=
  mkRequest POST
    [("name", "Bo"); ("email", "bo@x.com"); ("phone", "043"); ("message", "Hi")]
    false.

Definition to_index : Z -> M response :=
  fun _ => mret (Redirect "cafelist" []).

End Scenario.

(** ** [forms.py]: the account forms *)

Definition RegisterForm : form_class :=
  [("email", Field StringField "Email" [DataRequired]);
   ("password", Field PasswordField "Password" [DataRequired]);
   ("name", Field StringField "Name" [DataRequired]);
   ("submit", Field SubmitField "Sign Me Up!" [])]
  ++ FlaskForm.

Definition LoginForm : form_class :=
  [("email", Field StringField "Email" [DataRequired]);
   ("password", Field PasswordField "Password" [DataRequired]);
   ("submit", Field SubmitField "Let Me In!" [])]
  ++ FlaskForm.

(** ** [main.py]: accounts, sessions and the index *)

(** The two functions of [werkzeug.security] the handlers call.  The hash of
    a password depends on the salt drawn for it; the draw belongs to the
    world of the request, as the relay does. *)
Record werkzeug := mkWerkzeug {
  generate_password_hash : string -> string;
  check_password_hash : string -> string -> bool }.

(** [db.session.execute(db.select(User).where(User.email == e)).scalar()]:
    the first matching row in the order of the store, [None] without one. *)
Definition select_user_by_email (d : DB) (e : pydata) : option (Z * User.t) :=
  head (filter (fun kv : Z * User.t => User.email kv.2 = e)
          (map_to_list (users d))).

(** Some row already has this [email] ([unique=True]; NULLs never clash). *)
Definition email_taken (table : gmap Z User.t) (e : pydata) : bool :=
  negb (is_null e)
  && existsb (fun kv : Z * User.t => bool_decide (User.email kv.2 = e))
       (map_to_list table).

(** [db.session.add(new_user); db.session.commit()] *)
Definition add_commit_user (u : User.t) : M Z :=
  d ← get_db;
  if email_taken (users d) (User.email u)
  then raise (IntegrityError "UNIQUE constraint failed: users.email")
  else
    let id := next_id (users d) in
    put_db (mkDB (cafelist d) (<[id := u]> (users d)) (comments d));;
    mret id.

(** [generate_password_hash(form.password.data, ...)]: hashing encodes the
    password, which [None] cannot do. *)
Definition hash_and_salt (wz : werkzeug) (password : pydata) : M pydata :=
  match password with
  | PyStr p => mret (PyStr (generate_password_hash wz p))
  | _ => raise (AttributeError "NoneType" "encode")
  end.

(** [check_password_hash(user.password, password)] on column and field
    values: the stored hash is split at its [$] signs first. *)
Definition check_password (wz : werkzeug) (pwhash password : pydata)
  : M bool :=
  match pwhash, password with
  | PyStr h, PyStr p => mret (check_password_hash wz h p)
  | PyStr _, _ => raise (AttributeError "NoneType" "encode")
  | _, _ => raise (AttributeError "NoneType" "count")
  end.

(** What [render_template("index.html", ...)] is handed. *)
Record index_page := mkIndex {
  index_template : string;
  all_cafes : list (Z * Cafe.t);
  index_user : current_user_t }.

(** The handlers that read or write the session take the identifier it holds
    and return the one it holds afterwards; [login_user] stores the user's
    identifier, [logout_user] removes it. *)
Module Routes.

Definition register (env : environ) (wz : werkzeug) (cu : current_user_t)
    (session : option Z) (req : request) : M (response * option Z) :=
  let form := instantiate RegisterForm [] req in
  if validate_on_submit env req form then
    f_email ← getattr "RegisterForm" form "email";
    d ← get_db;
    match select_user_by_email d (data f_email) with
    | Some _ =>
        flash "You've already signed up with that email, log in instead!";;
        mret (Redirect "login" [], session)
    | None =>
        f_password ← getattr "RegisterForm" form "password";
        hash_and_salted_password ← hash_and_salt wz (data f_password);
        f_name ← getattr "RegisterForm" form "name";
        new_user_id ←
          add_commit_user
            {| User.email := data f_email;
               User.password := hash_and_salted_password;
               User.name := data f_name |};
        mret (Redirect "cafelist" [], Some new_user_id)
    end
  else
    mret (Render "register.html"
            [("form", TFields (form_data form)); ("current_user", TUser cu)],
          session).

Definition login (env : environ) (wz : werkzeug) (cu : current_user_t)
    (session : option Z) (req : request) : M (response * option Z) :=
  let form := instantiate LoginForm [] req in
  if validate_on_submit env req form then
    f_password ← getattr "LoginForm" form "password";
    let password := data f_password in
    f_email ← getattr "LoginForm" form "email";
    d ← get_db;
    match select_user_by_email d (data f_email) with
    | None =>
        flash "That email does not exist, please try again.";;
        mret (Redirect "login" [], session)
    | Some (id, user) =>
        ok ← check_password wz (User.password user) password;
        if negb ok then
          flash "Password incorrect, please try again.";;
          mret (Redirect "login" [], session)
        else mret (Redirect "cafelist" [], Some id)
    end
  else
    mret (Render "login.html"
            [("form", TFields (form_data form)); ("current_user", TUser cu)],
          session).

Definition logout (session : option Z) : M (response * option Z) :=
  mret (Redirect "cafelist" [], None).

Definition cafelist (cu : current_user_t) : M index_page :=
  d ← get_db;
  let cafes := map_to_list (cafelist d) in
  mret (mkIndex "index.html" cafes cu).

End Routes.

(** ** What a well-kept store looks like *)

(** No two rows of [users] share an email (NULLs apart). *)
Definition emails_unique (d : DB) : Prop :=
  ∀ k1 k2 u1 u2,
    users d !! k1 = Some u1 -> users d !! k2 = Some u2 ->
    User.email u1 = User.email u2 -> User.email u1 ≠ PyNone -> k1 = k2.

(** Every comment's author is a row of [users] and its parent entry, when
    it has one, a row of [cafelist]. *)
Definition comments_linked (d : DB) : Prop :=
  ∀ k c,
    comments d !! k = Some c ->
    (∀ a, Comment.author_id c = Some a -> is_Some (users d !! a))
    ∧ (∀ p, Comment.cafe_id c = Some p -> is_Some (cafelist d !! p)).

(** Every user of the first state is, unchanged, a user of the second. *)
Definition keeps_users (s s' : state) : Prop :=
  ∀ k u, users (db s) !! k = Some u -> users (db s') !! k = Some u.

(** The identifier a session holds, if any, names a stored user. *)
Definition session_valid (s : state) (session : option Z) : Prop :=
  ∀ id, session = Some id -> is_Some (users (db s) !! id).

(** The value a submitted text input must have for [DataRequired]. *)
Definition filled (raw : option string) : bool :=
  match raw with
  | Some v => negb (String.eqb (strip v) "")
  | None => false
  end.


(** Sample accounts data for the running scenario. *)
Module Signup.

(** A stand-in for the hash functions: enough to tell passwords apart. *)
Definition hasher : werkzeug :=
  mkWerkzeug (fun p => String.append "pbkdf2:sha256$" p)
    (fun h p => String.eqb h (String.append "pbkdf2:sha256$" p)).

Definition register_post (email password name : string) : request :=
  mkRequest POST
    [("email", email); ("password", password); ("name", name);
     ("submit", "Sign Me Up!")] true.

Definition login_post (email password : string) : request :=
  mkRequest POST
    [("email", email); ("password", password); ("submit", "Let Me In!")] true.

Definition comment_text_post (text : string) : request :=
  mkRequest POST [("comment_text", text); ("submit", "Submit Comment")] true.

End Signup.

(** * Properties *)

(** ** The embedding at work *)

Example py_int_reads :
  py_int " 1_0 " = Some 10 ∧ py_int "-7" = Some (-7) ∧ py_int "+3" = Some 3
  ∧ py_int "" = None ∧ py_int "1__0" = None ∧ py_int "7a" = None.
Proof. repeat split. Qed.

Example strip_blank : strip "  " = "" ∧ strip " a b " = "a b".
Proof. split; reflexivity. Qed.

(** A logged-in user's valid comment is stored under a fresh key, linked to
    the author and to the entry. *)
Example show_cafe_logged_in_comment :
  comments
    (db (show_cafe Scenario.env (LoggedIn 2 Scenario.alice)
           Scenario.comment_post 1 Scenario.start).2) !! 3
  = Some (Comment.mk (PyStr "Lovely place") (Some 2) (Some 1)).
Proof. reflexivity. Qed.

(** A blank comment does not validate. *)
Example blank_comment_invalid :
  validate_on_submit Scenario.env
    (mkRequest POST [("comment_text", "   ")] true)
    (instantiate CommentForm [] (mkRequest POST [("comment_text", "   ")] true))
  = false.
Proof. reflexivity. Qed.

(** ** Running the monad *)

Lemma bind_run {A B} (m : M A) (k : A -> M B) (s : state) :
  (m ≫= k) s =
  match m s with
  | (Ok a, s') => k a s'
  | (Abort c, s') => (Abort c, s')
  | (Raise e, s') => (Raise e, s')
  end.
Proof. reflexivity. Qed.

Lemma bind_ok {A B} (m : M A) (k : A -> M B) s a s' :
  m s = (Ok a, s') -> (m ≫= k) s = k a s'.
Proof. intros H. rewrite bind_run, H. reflexivity. Qed.

Lemma bind_abort {A B} (m : M A) (k : A -> M B) s c s' :
  m s = (Abort c, s') -> (m ≫= k) s = (Abort c, s').
Proof. intros H. rewrite bind_run, H. reflexivity. Qed.

Lemma bind_raise {A B} (m : M A) (k : A -> M B) s e s' :
  m s = (Raise e, s') -> (m ≫= k) s = (Raise e, s').
Proof. intros H. rewrite bind_run, H. reflexivity. Qed.

Lemma get_or_404_found {A} (table : DB -> gmap Z A) id row s :
  table (db s) !! id = Some row -> get_or_404 table id s = (Ok row, s).
Proof.
  intros H. unfold get_or_404. rewrite (bind_ok _ _ s (db s) s) by reflexivity.
  rewrite H. reflexivity.
Qed.

Lemma get_or_404_missing {A} (table : DB -> gmap Z A) id s :
  table (db s) !! id = None -> get_or_404 table id s = (@Abort A 404, s).
Proof.
  intros H. unfold get_or_404. rewrite (bind_ok _ _ s (db s) s) by reflexivity.
  rewrite H. reflexivity.
Qed.

(** A session resolves to a logged-in user only through a row of [users]. *)
Lemma current_user_loaded session id u s :
  current_user session s = (Ok (LoggedIn id u), s) ->
  users (db s) !! id = Some u.
Proof.
  destruct session as [uid|]; simpl; [|discriminate].
  unfold load_user. rewrite bind_run.
  destruct (users (db s) !! uid) as [row|] eqn:E.
  - rewrite (get_or_404_found users uid row s E). intros [= -> ->]. exact E.
  - rewrite (get_or_404_missing users uid s E). discriminate.
Qed.

(** ** The decorators *)

Lemma admin_only_logged_in id u f cafe_id s :
  admin_only (LoggedIn id u) f cafe_id s =
  if id =? 1 then f cafe_id s else (Abort 403, s).
Proof.
  unfold admin_only. rewrite (bind_ok _ _ s id s) by reflexivity.
  destruct (id =? 1); reflexivity.
Qed.

Lemma user_can_edit_cafe_run cu func cafe_id cafe s :
  cafelist (db s) !! cafe_id = Some cafe ->
  user_can_edit_cafe cu func cafe_id s =
  match cu with
  | AnonymousUserMixin => (Abort 403, s)
  | LoggedIn id _ =>
      if user_ne cu (contributor (db s) cafe) || negb (id =? 1)
      then (Abort 403, s) else func cafe_id s
  end.
Proof.
  intros Hc. unfold user_can_edit_cafe.
  rewrite (bind_ok _ _ s cafe s) by (apply get_or_404_found; exact Hc).
  rewrite (bind_ok _ _ s (db s) s) by reflexivity.
  destruct cu as [|id u].
  - reflexivity.
  - destruct (user_ne (LoggedIn id u) (contributor (db s) cafe)) eqn:E.
    + reflexivity.
    + simpl. rewrite bind_run. simpl. destruct (id =? 1); reflexivity.
Qed.

(** C1. On an existing entry the ownership decorator runs the wrapped
    handler when the acting user is at once the entry's contributor and the
    super-admin (identifier 1); for every other acting user, anonymous
    included, it aborts with 403 and touches nothing. *)
Theorem user_can_edit_cafe_both_or_403 session cu func cafe_id cafe s :
  current_user session s = (Ok cu, s) ->
  cafelist (db s) !! cafe_id = Some cafe ->
  (is_contributor_of cu cafe ∧ is_super_admin cu ->
   user_can_edit_cafe cu func cafe_id s = func cafe_id s)
  ∧ (¬ (is_contributor_of cu cafe ∧ is_super_admin cu) ->
     user_can_edit_cafe cu func cafe_id s = (Abort 403, s)
     ∧ http_status (user_can_edit_cafe cu func cafe_id s).1 = 403).
Proof.
  intros Hcu Hcafe.
  rewrite (user_can_edit_cafe_run cu func cafe_id cafe s Hcafe).
  destruct cu as [|id u].
  - split.
    + intros [_ [u Hu]]. discriminate.
    + intros _. split; reflexivity.
  - pose proof (current_user_loaded session id u s Hcu) as Hu.
    split.
    + intros [(id' & u' & Heq & Hfk) (u1 & Hadm)].
      injection Hadm as -> ->. injection Heq as <- <-.
      unfold contributor. rewrite Hfk. simpl. rewrite Hu. reflexivity.
    + intros Hnot.
      destruct (user_ne (LoggedIn id u) (contributor (db s) cafe) ||
                negb (id =? 1)) eqn:E; [split; reflexivity|].
      exfalso. apply Hnot.
      apply orb_false_elim in E as [Hne Hid].
      apply negb_false_iff, Z.eqb_eq in Hid. subst id.
      unfold user_ne in Hne.
      destruct (contributor (db s) cafe) as [[cid cu']|] eqn:Ec;
        [|discriminate].
      apply negb_false_iff, Z.eqb_eq in Hne. subst cid.
      unfold contributor in Ec.
      destruct (Cafe.contributor_id cafe) as [fk|] eqn:Efk; [|discriminate].
      simpl in Ec. destruct (users (db s) !! fk) eqn:Eu; [|discriminate].
      simpl in Ec. injection Ec as -> _.
      split; [exists 1, u | exists u]; auto.
Qed.

(** The super-admin passes on the own entry; Alice, contributor of hers but
    not super-admin, is refused. *)
Lemma user_can_edit_cafe_both_or_403_witness :
  user_can_edit_cafe (LoggedIn 1 Scenario.root) Scenario.to_index 1
    Scenario.start
  = Scenario.to_index 1 Scenario.start
  ∧ user_can_edit_cafe (LoggedIn 2 Scenario.alice) Scenario.to_index 2
      Scenario.start
    = (Abort 403, Scenario.start).
Proof.
  split.
  - apply (user_can_edit_cafe_both_or_403 (Some 1) (LoggedIn 1 Scenario.root)
             Scenario.to_index 1 Scenario.corner Scenario.start);
      [reflexivity | reflexivity |].
    split; [exists 1, Scenario.root | exists Scenario.root]; auto.
  - apply (user_can_edit_cafe_both_or_403 (Some 2) (LoggedIn 2 Scenario.alice)
             Scenario.to_index 2 Scenario.joes Scenario.start);
      [reflexivity | reflexivity |].
    intros [_ [u Hu]]. discriminate Hu.
Defined.

(** ** Deleting an entry *)

Lemma delete_cafe_super_admin u cafe_id cafe s :
  cafelist (db s) !! cafe_id = Some cafe ->
  delete_cafe (LoggedIn 1 u) cafe_id s =
  (Ok (Redirect "cafelist" []),
   mkState
     (mkDB (delete cafe_id (cafelist (db s))) (users (db s))
        ((fun c => if is_child cafe_id c then orphan c else c)
           <$> comments (db s)))
     (flashes s) (outbox s)).
Proof.
  intros Hc. unfold delete_cafe. rewrite admin_only_logged_in. simpl.
  rewrite (bind_ok _ _ s cafe s) by (apply get_or_404_found; exact Hc).
  reflexivity.
Qed.

(** C5. A delete request of a logged-in user whose identifier is not 1 is
    answered 403 and leaves the whole state, the entry included, as it
    was. *)
Theorem delete_cafe_non_admin_forbidden id u cafe_id s :
  id ≠ 1 ->
  delete_cafe (LoggedIn id u) cafe_id s = (Abort 403, s)
  ∧ http_status (delete_cafe (LoggedIn id u) cafe_id s).1 = 403
  ∧ cafelist (db (delete_cafe (LoggedIn id u) cafe_id s).2) !! cafe_id
    = cafelist (db s) !! cafe_id.
Proof.
  intros Hid. unfold delete_cafe. rewrite admin_only_logged_in.
  apply Z.eqb_neq in Hid. rewrite Hid. repeat split.
Qed.

(** Alice (identifier 2) asks to delete the super-admin's entry. *)
Lemma delete_cafe_non_admin_forbidden_witness :
  delete_cafe (LoggedIn 2 Scenario.alice) 1 Scenario.start
  = (Abort 403, Scenario.start)
  ∧ http_status (delete_cafe (LoggedIn 2 Scenario.alice) 1 Scenario.start).1
    = 403
  ∧ cafelist (db (delete_cafe (LoggedIn 2 Scenario.alice) 1 Scenario.start).2)
      !! 1
    = cafelist (db Scenario.start) !! 1.
Proof.
  apply (delete_cafe_non_admin_forbidden 2 Scenario.alice 1 Scenario.start).
  lia.
Defined.

(** C9. With an anonymous session the super-admin check does not answer
    403: reading [current_user.id] raises [AttributeError], which ends the
    delete request as a server error.  The entry-edit check does deny: 403 on
    an existing entry, 404 on a missing one.  Neither runs the wrapped
    handler. *)
Theorem anonymous_admin_only_raises f cafe_id s :
  admin_only AnonymousUserMixin f cafe_id s
  = (Raise (AttributeError "AnonymousUserMixin" "id"), s)
  ∧ delete_cafe AnonymousUserMixin cafe_id s
    = (Raise (AttributeError "AnonymousUserMixin" "id"), s)
  ∧ http_status (delete_cafe AnonymousUserMixin cafe_id s).1 = 500
  ∧ user_can_edit_cafe AnonymousUserMixin f cafe_id s
    = (Abort match cafelist (db s) !! cafe_id with
             | Some _ => 403
             | None => 404
             end, s).
Proof.
  repeat split.
  destruct (cafelist (db s) !! cafe_id) as [cafe|] eqn:E.
  - rewrite (user_can_edit_cafe_run _ f cafe_id cafe s E). reflexivity.
  - unfold user_can_edit_cafe.
    rewrite (bind_abort _ _ s 404 s) by (apply get_or_404_missing; exact E).
    reflexivity.
Qed.

(** C10. When the super-admin deletes an existing entry, the entry leaves
    [cafelist] and no comment is deleted: under every key the [comments] table
    holds what it held, except that the comments of the deleted entry have
    their [cafe_id] set to NULL. *)
Theorem delete_cafe_orphans_comments u cafe_id cafe s :
  cafelist (db s) !! cafe_id = Some cafe ->
  ∃ s',
    delete_cafe (LoggedIn 1 u) cafe_id s = (Ok (Redirect "cafelist" []), s')
    ∧ cafelist (db s') !! cafe_id = None
    ∧ cascade_delete Cafe_comments = false
    ∧ ∀ k : Z,
        comments (db s') !! k =
        (fun c =>
           if bool_decide (Comment.cafe_id c = Some cafe_id)
           then Comment.mk (Comment.text c) (Comment.author_id c) None
           else c) <$> (comments (db s) !! k).
Proof.
  intros Hc. eexists. split; [apply (delete_cafe_super_admin u _ cafe s Hc)|].
  simpl. split; [apply lookup_delete_eq|]. split; [reflexivity|].
  intros k. rewrite lookup_fmap. reflexivity.
Qed.

(** The super-admin deletes entry 1: its comment stays, orphaned; the comment
    on entry 2 is as it was. *)
Lemma delete_cafe_orphans_comments_witness :
  ∃ s',
    delete_cafe (LoggedIn 1 Scenario.root) 1 Scenario.start
    = (Ok (Redirect "cafelist" []), s')
    ∧ cafelist (db s') !! 1 = None
    ∧ comments (db s') !! 1 = Some (Comment.mk (PyStr "Agreed") (Some 2) None)
    ∧ comments (db s') !! 2 = Some Scenario.on_joes.
Proof.
  destruct (delete_cafe_orphans_comments Scenario.root 1 Scenario.corner
              Scenario.start eq_refl) as (s' & Hrun & Hgone & _ & Hcomments).
  exists s'. split; [exact Hrun|]. split; [exact Hgone|].
  split; rewrite Hcomments; reflexivity.
Defined.

(** ** Commenting *)

Lemma show_cafe_anonymous env req cafe_id s :
  show_cafe env AnonymousUserMixin req cafe_id s =
  match cafelist (db s) !! cafe_id with
  | None => (Abort 404, s)
  | Some cafe =>
      if validate_on_submit env req (instantiate CommentForm [] req)
      then (Ok (Redirect "login" []),
            mkState (db s)
              (flashes s ++ ["You need to login or register to comment."])
              (outbox s))
      else (Ok (Render "cafe.html"
                  [("cafe", TCafe cafe_id cafe);
                   ("current_user", TUser AnonymousUserMixin);
                   ("form",
                    TFields (form_data (instantiate CommentForm [] req)))]),
            s)
  end.
Proof.
  unfold show_cafe. destruct (cafelist (db s) !! cafe_id) as [cafe|] eqn:E.
  - rewrite (bind_ok _ _ s cafe s) by (apply get_or_404_found; exact E).
    destruct (validate_on_submit env req (instantiate CommentForm [] req));
      reflexivity.
  - rewrite (bind_abort _ _ s 404 s) by (apply get_or_404_missing; exact E).
    reflexivity.
Qed.

(** C3. A comment submission of an anonymous session leaves the database as
    it was, so no comment row is written, whatever the form holds; and when
    the submitted form is valid, on an existing entry, the answer is the
    redirect to the login page. *)
Theorem anonymous_comment_never_persisted env req cafe_id s :
  db (show_cafe env AnonymousUserMixin req cafe_id s).2 = db s
  ∧ comments (db (show_cafe env AnonymousUserMixin req cafe_id s).2)
    = comments (db s)
  ∧ ∀ cafe,
      cafelist (db s) !! cafe_id = Some cafe ->
      validate_on_submit env req (instantiate CommentForm [] req) = true ->
      (show_cafe env AnonymousUserMixin req cafe_id s).1
      = Ok (Redirect "login" []).
Proof.
  rewrite show_cafe_anonymous.
  destruct (cafelist (db s) !! cafe_id) as [cafe|].
  - destruct (validate_on_submit env req (instantiate CommentForm [] req)).
    + repeat split.
    + repeat split. intros _ _ [=].
  - repeat split. intros ? [=].
Qed.

(** An anonymous visitor submits a valid comment on entry 1. *)
Lemma anonymous_comment_never_persisted_witness :
  comments
    (db (show_cafe Scenario.env AnonymousUserMixin Scenario.comment_post 1
           Scenario.start).2)
  = comments (db Scenario.start)
  ∧ (show_cafe Scenario.env AnonymousUserMixin Scenario.comment_post 1
       Scenario.start).1
    = Ok (Redirect "login" []).
Proof.
  destruct (anonymous_comment_never_persisted Scenario.env
              Scenario.comment_post 1 Scenario.start) as (_ & Hsame & Hlogin).
  split; [exact Hsame|].
  apply (Hlogin Scenario.corner); reflexivity.
Defined.

(** ** The entry form *)

(** [CreateCafeForm] declares no field called [contributor_name]. *)
Lemma CreateCafeForm_no_contributor_name kwargs req :
  lookup_field (instantiate CreateCafeForm kwargs req) "contributor_name"
  = None.
Proof. reflexivity. Qed.

(** The rating field of a bound entry form. *)
Lemma CreateCafeForm_rating kwargs req :
  lookup_field (instantiate CreateCafeForm kwargs req) "rating" =
  Some (mkField
          (Field IntegerField "What would you rate this cafe from 1 to 10?"
             [DataRequired;
              NumberRange 1 10 "Rating must be between 1 and 10."])
          (process_field IntegerField (kwarg kwargs "rating")
             (is_submitted req) (getfirst (form req) "rating"))).
Proof. reflexivity. Qed.

Lemma rating_field_validate env uf_label n :
  field_validate env
    (mkField
       (Field IntegerField uf_label
          [DataRequired; NumberRange 1 10 "Rating must be between 1 and 10."])
       (PyInt n))
  = (1 <=? n) && (n <=? 10).
Proof.
  unfold field_validate. simpl.
  destruct (n =? 0) eqn:E0; simpl.
  - apply Z.eqb_eq in E0. subst n. reflexivity.
  - destruct ((1 <=? n) && (n <=? 10)); reflexivity.
Qed.

Lemma forallb_false_at {A} (p : A -> bool) (l : list A) x :
  In x l -> p x = false -> forallb p l = false.
Proof.
  intros Hin Hp. destruct (forallb p l) eqn:E; [|reflexivity].
  rewrite forallb_forall in E. rewrite (E x Hin) in Hp. discriminate.
Qed.

(** A form whose rating field fails does not validate. *)
Lemma CreateCafeForm_rating_gate env req kwargs fld :
  lookup_field (instantiate CreateCafeForm kwargs req) "rating" = Some fld ->
  field_validate env fld = false ->
  validate env req (instantiate CreateCafeForm kwargs req) = false.
Proof.
  rewrite CreateCafeForm_rating. intros [= <-] Hbad.
  unfold validate.
  eapply forallb_false_at with (x := ("rating", _)).
  - unfold instantiate, CreateCafeForm. simpl. right. right. left.
    reflexivity.
  - simpl. exact Hbad.
Qed.

Lemma getattr_contributor_name {B} kwargs req (k : field -> M B) s :
  (getattr "CreateCafeForm" (instantiate CreateCafeForm kwargs req)
     "contributor_name" ≫= k) s
  = (Raise (AttributeError "CreateCafeForm" "contributor_name"), s).
Proof.
  unfold getattr. rewrite CreateCafeForm_no_contributor_name. reflexivity.
Qed.

(** What [add_new_cafe] does, path by path. *)
Lemma add_new_cafe_run env cu req s :
  add_new_cafe env cu req s =
  (if is_authenticated cu then
     if validate_on_submit env req (instantiate CreateCafeForm [] req)
     then Raise (AttributeError "CreateCafeForm" "contributor_name")
     else Ok (Render "add-cafe.html"
                [("form",
                  TFields (form_data (instantiate CreateCafeForm [] req)));
                 ("current_user", TUser cu)])
   else Abort 401, s).
Proof.
  unfold add_new_cafe, login_required.
  destruct (is_authenticated cu); [|reflexivity].
  destruct (validate_on_submit env req (instantiate CreateCafeForm [] req)).
  - apply getattr_contributor_name.
  - reflexivity.
Qed.

(** What [edit_cafe] does on an existing entry, path by path. *)
Lemma edit_cafe_run env cu req cafe_id cafe s :
  cafelist (db s) !! cafe_id = Some cafe ->
  edit_cafe env cu req cafe_id s =
  (if is_authenticated cu then
     if validate_on_submit env req (edit_form (db s) cafe req)
     then Raise (AttributeError "CreateCafeForm" "contributor_name")
     else Ok (Render "add-cafe.html"
                [("form", TFields (form_data (edit_form (db s) cafe req)));
                 ("is_edit", TBool true); ("current_user", TUser cu)])
   else Abort 401, s).
Proof.
  intros Hc. unfold edit_cafe, login_required.
  destruct (is_authenticated cu); [|reflexivity].
  rewrite (bind_ok _ _ s cafe s) by (apply get_or_404_found; exact Hc).
  rewrite (bind_ok _ _ s (db s) s) by reflexivity.
  destruct (validate_on_submit env req (edit_form (db s) cafe req)).
  - unfold edit_form. apply getattr_contributor_name.
  - reflexivity.
Qed.

(** C4. When the rating submitted with the entry form reads as an integer
    below 1 or above 10, the form does not validate and [add_new_cafe] answers
    with the form again (401 without a login), the state untouched; when it
    reads as an integer from 1 to 10, the boundaries included, the rating
    field passes its validators. *)
Theorem rating_outside_range_rejected env cu req s raw n :
  getfirst (form req) "rating" = Some raw ->
  py_int raw = Some n ->
  (n < 1 ∨ 10 < n ->
   validate env req (instantiate CreateCafeForm [] req) = false
   ∧ add_new_cafe env cu req s =
     (if is_authenticated cu
      then Ok (Render "add-cafe.html"
                 [("form",
                   TFields (form_data (instantiate CreateCafeForm [] req)));
                  ("current_user", TUser cu)])
      else Abort 401, s))
  ∧ (method req = POST -> 1 <= n <= 10 ->
     ∃ fld,
       lookup_field (instantiate CreateCafeForm [] req) "rating" = Some fld
       ∧ data fld = PyInt n
       ∧ field_validate env fld = true).
Proof.
  intros Hraw Hint. split.
  - intros Hout.
    assert (Hv : validate env req (instantiate CreateCafeForm [] req) = false).
    { eapply CreateCafeForm_rating_gate; [apply CreateCafeForm_rating|].
      rewrite Hraw. simpl.
      destruct (is_submitted req); simpl.
      - rewrite Hint. rewrite rating_field_validate.
        apply andb_false_iff. destruct Hout; [left|right]; lia.
      - reflexivity. }
    split; [exact Hv|].
    rewrite add_new_cafe_run. unfold validate_on_submit. rewrite Hv.
    rewrite andb_false_r. reflexivity.
  - intros Hpost Hin. eexists. split; [apply CreateCafeForm_rating|].
    unfold is_submitted. rewrite Hpost, Hraw. simpl. rewrite Hint.
    split; [reflexivity|]. rewrite rating_field_validate.
    apply andb_true_iff. split; lia.
Qed.

(** Ratings 0 and 11 are turned away, 1 and 10 pass, and with rating 10 the
    whole submission validates. *)
Lemma rating_outside_range_rejected_witness :
  validate Scenario.env (Scenario.entry_post "0" "")
    (instantiate CreateCafeForm [] (Scenario.entry_post "0" "")) = false
  ∧ validate Scenario.env (Scenario.entry_post "11" "")
      (instantiate CreateCafeForm [] (Scenario.entry_post "11" "")) = false
  ∧ (∃ fld,
       lookup_field
         (instantiate CreateCafeForm [] (Scenario.entry_post "1" "")) "rating"
       = Some fld
       ∧ data fld = PyInt 1 ∧ field_validate Scenario.env fld = true)
  ∧ (∃ fld,
       lookup_field
         (instantiate CreateCafeForm [] (Scenario.entry_post "10" "")) "rating"
       = Some fld
       ∧ data fld = PyInt 10 ∧ field_validate Scenario.env fld = true)
  ∧ validate Scenario.env (Scenario.entry_post "10" "")
      (instantiate CreateCafeForm [] (Scenario.entry_post "10" "")) = true.
Proof.
  split.
  { apply (rating_outside_range_rejected Scenario.env
             (LoggedIn 2 Scenario.alice) (Scenario.entry_post "0" "")
             Scenario.start "0" 0); [reflexivity | reflexivity | lia]. }
  split.
  { apply (rating_outside_range_rejected Scenario.env
             (LoggedIn 2 Scenario.alice) (Scenario.entry_post "11" "")
             Scenario.start "11" 11); [reflexivity | reflexivity | lia]. }
  split.
  { apply (rating_outside_range_rejected Scenario.env
             (LoggedIn 2 Scenario.alice) (Scenario.entry_post "1" "")
             Scenario.start "1" 1); [reflexivity | reflexivity | reflexivity | lia]. }
  split.
  { apply (rating_outside_range_rejected Scenario.env
             (LoggedIn 2 Scenario.alice) (Scenario.entry_post "10" "")
             Scenario.start "10" 10); [reflexivity | reflexivity | reflexivity | lia]. }
  reflexivity.
Defined.

(** ** Creating and editing an entry *)

(** C6. A valid entry submission of a logged-in user does not reach the
    contributor-name default: [form.contributor_name] raises
    [AttributeError], whatever the request carries under that name, the
    request ends as a server error and nothing is stored. *)
Theorem add_new_cafe_valid_submission_raises env id u req s :
  validate_on_submit env req (instantiate CreateCafeForm [] req) = true ->
  add_new_cafe env (LoggedIn id u) req s
  = (Raise (AttributeError "CreateCafeForm" "contributor_name"), s)
  ∧ http_status (add_new_cafe env (LoggedIn id u) req s).1 = 500.
Proof.
  intros Hv. rewrite add_new_cafe_run. cbn [is_authenticated].
  rewrite Hv. split; reflexivity.
Qed.

(** Alice submits a valid entry, once with the contributor name left blank
    and once filled in. *)
Lemma add_new_cafe_valid_submission_raises_witness :
  add_new_cafe Scenario.env (LoggedIn 2 Scenario.alice)
    (Scenario.entry_post "7" "") Scenario.start
  = (Raise (AttributeError "CreateCafeForm" "contributor_name"),
     Scenario.start)
  ∧ add_new_cafe Scenario.env (LoggedIn 2 Scenario.alice)
      (Scenario.entry_post "7" "Bo") Scenario.start
    = (Raise (AttributeError "CreateCafeForm" "contributor_name"),
       Scenario.start).
Proof.
  split.
  - apply (add_new_cafe_valid_submission_raises Scenario.env 2 Scenario.alice
             (Scenario.entry_post "7" "") Scenario.start).
    reflexivity.
  - apply (add_new_cafe_valid_submission_raises Scenario.env 2 Scenario.alice
             (Scenario.entry_post "7" "Bo") Scenario.start).
    reflexivity.
Defined.

(** C8. The [Cafe(...)] call of [add_new_cafe] passes no contributor, so the
    row it builds has a NULL [contributor_id]; and as the handler never gets
    past [form.contributor_name], no request makes it store a row: the state
    after is the state before. *)
Theorem add_new_cafe_links_no_contributor :
  (∀ name summary body img_url contributor_name date rating,
     Cafe.contributor_id
       (new_cafe name summary body img_url contributor_name date rating)
     = None)
  ∧ (∀ env cu req s, (add_new_cafe env cu req s).2 = s)
  ∧ (add_new_cafe Scenario.env (LoggedIn 2 Scenario.alice)
       (Scenario.entry_post "7" "") Scenario.start).1
    = Raise (AttributeError "CreateCafeForm" "contributor_name").
Proof.
  split; [reflexivity|]. split; [|reflexivity].
  intros env cu req s. rewrite add_new_cafe_run. reflexivity.
Qed.

(** The edit route never answers 403 to a logged-in user: it carries no
    ownership or super-admin check. *)
Lemma edit_cafe_never_forbidden env id u req cafe_id s :
  (edit_cafe env (LoggedIn id u) req cafe_id s).1 ≠ Abort 403.
Proof.
  destruct (cafelist (db s) !! cafe_id) as [cafe|] eqn:E.
  - rewrite (edit_cafe_run env _ req cafe_id cafe s E). cbn [is_authenticated].
    destruct (validate_on_submit env req (edit_form (db s) cafe req));
      discriminate.
  - unfold edit_cafe, login_required. cbn [is_authenticated].
    rewrite (bind_abort _ _ s 404 s) by (apply get_or_404_missing; exact E).
    discriminate.
Qed.

(** C2. The edit route asks for a login only: any logged-in user reaches
    the handler of any existing entry.  But a valid submission does not
    overwrite the entry: [edit_form.contributor_name] raises
    [AttributeError] before the first assignment, and the entry stays as it
    was. *)
Theorem edit_cafe_valid_submission_raises env id u req cafe_id cafe s :
  cafelist (db s) !! cafe_id = Some cafe ->
  validate_on_submit env req (edit_form (db s) cafe req) = true ->
  edit_cafe env (LoggedIn id u) req cafe_id s
  = (Raise (AttributeError "CreateCafeForm" "contributor_name"), s)
  ∧ cafelist (db (edit_cafe env (LoggedIn id u) req cafe_id s).2) !! cafe_id
    = Some cafe.
Proof.
  intros Hc Hv. rewrite (edit_cafe_run env _ req cafe_id cafe s Hc).
  cbn [is_authenticated]. rewrite Hv. split; [reflexivity | exact Hc].
Qed.

(** Alice submits a valid edit of the super-admin's entry. *)
Lemma edit_cafe_valid_submission_raises_witness :
  edit_cafe Scenario.env (LoggedIn 2 Scenario.alice)
    (Scenario.entry_post "9" "") 1 Scenario.start
  = (Raise (AttributeError "CreateCafeForm" "contributor_name"),
     Scenario.start)
  ∧ cafelist
      (db (edit_cafe Scenario.env (LoggedIn 2 Scenario.alice)
             (Scenario.entry_post "9" "") 1 Scenario.start).2) !! 1
    = Some Scenario.corner.
Proof.
  apply (edit_cafe_valid_submission_raises Scenario.env 2 Scenario.alice
           (Scenario.entry_post "9" "") 1 Scenario.corner Scenario.start);
    reflexivity.
Defined.

(** ** The contact form *)

Lemma send_email_run env name email phone message s :
  (send_email env name email phone message s).1 =
  match relay_failure env (email_text name email phone message) with
  | Some e => Raise e
  | None => Ok tt
  end.
Proof.
  unfold send_email, relay_failure, with_connection.
  rewrite bind_run.
  destruct (connect (smtp env) "smtp.gmail.com"); simpl; [reflexivity|].
  rewrite bind_run.
  destruct (starttls (smtp env)); simpl.
  { destruct (quit (smtp env)); reflexivity. }
  rewrite bind_run.
  destruct (login (smtp env) (MAIL_ADDRESS env) (MAIL_APP_PW env)); simpl.
  { destruct (quit (smtp env)); reflexivity. }
  rewrite bind_run.
  destruct (sendmail (smtp env) (MAIL_ADDRESS env) (MAIL_APP_PW env)
              (email_text name email phone message)); simpl;
    destruct (quit (smtp env)); reflexivity.
Qed.

(** C7, as the code has it.  For a contact submission that carries the four
    inputs, the confirmation is rendered exactly when no step of the relay
    session raises; when one does, its exception escapes [contact] and the
    request ends as a server error. *)
Theorem contact_confirms_iff_relay_succeeds env req s name email phone message :
  method req = POST ->
  getfirst (form req) "name" = Some name ->
  getfirst (form req) "email" = Some email ->
  getfirst (form req) "phone" = Some phone ->
  getfirst (form req) "message" = Some message ->
  (contact env req s).1 =
  match relay_failure env (email_text name email phone message) with
  | Some e => Raise e
  | None => Ok (Render "contact.html" [("msg_sent", TBool true)])
  end
  ∧ (∀ e, relay_failure env (email_text name email phone message) = Some e ->
          http_status (contact env req s).1 = 500).
Proof.
  intros Hm Hn He Hp Hmsg.
  assert (Hrun : (contact env req s).1 =
    match relay_failure env (email_text name email phone message) with
    | Some e => Raise e
    | None => Ok (Render "contact.html" [("msg_sent", TBool true)])
    end).
  { unfold contact, form_item. rewrite Hm, Hn, He, Hp, Hmsg.
    do 4 (rewrite bind_run; simpl).
    rewrite bind_run.
    pose proof (send_email_run env name email phone message s) as Hs.
    destruct (send_email env name email phone message s) as [[[]|c|e] s'];
      simpl in Hs;
      destruct (relay_failure env (email_text name email phone message));
      simpl; congruence. }
  split; [exact Hrun|].
  intros e Hfail. rewrite Hrun, Hfail. reflexivity.
Qed.

(** The relay up: the confirmation.  The relay down: the exception. *)
Lemma contact_confirms_iff_relay_succeeds_witness :
  (contact Scenario.env Scenario.contact_post Scenario.start).1
  = Ok (Render "contact.html" [("msg_sent", TBool true)])
  ∧ (contact Scenario.env_relay_down Scenario.contact_post Scenario.start).1
    = Raise (OSError "Network is unreachable").
Proof.
  split.
  - apply (contact_confirms_iff_relay_succeeds Scenario.env
             Scenario.contact_post Scenario.start "Bo" "bo@x.com" "043" "Hi");
      reflexivity.
  - apply (contact_confirms_iff_relay_succeeds Scenario.env_relay_down
             Scenario.contact_post Scenario.start "Bo" "bo@x.com" "043" "Hi");
      reflexivity.
Defined.

(** C7, as the claim has it, fails: with the relay unreachable the handler
    does not render the confirmation; the connection error escapes it. *)
Lemma contact_relay_failure_surfaces :
  (contact Scenario.env_relay_down Scenario.contact_post Scenario.start).1
  = Raise (OSError "Network is unreachable")
  ∧ (contact Scenario.env_relay_down Scenario.contact_post Scenario.start).1
    ≠ Ok (Render "contact.html" [("msg_sent", TBool true)])
  ∧ http_status
      (contact Scenario.env_relay_down Scenario.contact_post Scenario.start).1
    = 500.
Proof.
  split; [reflexivity|]. split; [|reflexivity].
  intros H. vm_compute in H. discriminate H.
Qed.

(** * Beyond the claims: the rest of [main.py] and [forms.py] *)

(** ** Fresh keys and lookups by email *)

Lemma next_id_above {A} (table : gmap Z A) k v :
  table !! k = Some v -> k < next_id table.
Proof.
  unfold next_id. revert k v.
  apply (map_fold_weak_ind
           (fun r (m : gmap Z A) => ∀ k v, m !! k = Some v -> k < 1 + r)).
  - intros k v H. rewrite lookup_empty in H. discriminate.
  - intros i x m r Hi IH k v H.
    destruct (decide (i = k)) as [->|Hne].
    + lia.
    + rewrite lookup_insert_ne in H by exact Hne.
      specialize (IH k v H). lia.
Qed.

(** The key given to a new row is not in use. *)
Lemma next_id_fresh {A} (table : gmap Z A) : table !! next_id table = None.
Proof.
  destruct (table !! next_id table) as [v|] eqn:E; [|reflexivity].
  apply next_id_above in E. lia.
Qed.

Lemma select_user_by_email_Some d e k u :
  select_user_by_email d e = Some (k, u) ->
  users d !! k = Some u ∧ User.email u = e.
Proof.
  unfold select_user_by_email. intros H.
  apply head_Some_elem_of, list_elem_of_filter in H as [He Hin].
  apply elem_of_map_to_list in Hin. split; [exact Hin | exact He].
Qed.

Lemma select_user_by_email_None d e k u :
  select_user_by_email d e = None ->
  users d !! k = Some u -> User.email u ≠ e.
Proof.
  unfold select_user_by_email. intros H Hk He.
  apply head_None in H.
  apply (filter_nil_not_elem_of _ _ (k, u)) in H; [|exact He].
  apply H, elem_of_map_to_list. exact Hk.
Qed.

Lemma select_user_by_email_is_Some d e k u :
  users d !! k = Some u -> User.email u = e ->
  is_Some (select_user_by_email d e).
Proof.
  intros Hk He.
  destruct (select_user_by_email d e) eqn:E; [eauto|].
  exfalso. exact (select_user_by_email_None d e k u E Hk He).
Qed.

Lemma email_taken_false d e :
  select_user_by_email d e = None -> email_taken (users d) e = false.
Proof.
  intros Hnone. unfold email_taken.
  destruct (existsb _ (map_to_list (users d))) eqn:E;
    [|apply andb_false_r].
  apply existsb_exists in E as ([k u] & Hin & Hb).
  apply list_elem_of_In, elem_of_map_to_list in Hin.
  apply bool_decide_eq_true in Hb.
  exfalso. exact (select_user_by_email_None d e k u Hnone Hin Hb).
Qed.

(** ** What the three small forms ask of a submission *)

Lemma strip_filled v : filled (Some v) = true -> v ≠ "".
Proof. intros H ->. discriminate H. Qed.

Lemma DataRequired_text env t lbl raw submitted :
  match t with
  | StringField | CKEditorField | PasswordField => True
  | _ => False
  end ->
  field_validate env
    (mkField (Field t lbl [DataRequired])
       (process_field t PyNone submitted raw))
  = submitted && filled raw.
Proof.
  intros Ht. unfold field_validate.
  assert (Hd : process_field t PyNone submitted raw =
               match submitted, raw with
               | true, Some v => PyStr v
               | _, _ => PyNone
               end) by (destruct t; try contradiction; reflexivity).
  cbn [validators decl data run_validation_chain]. rewrite Hd.
  destruct submitted; [|destruct raw; reflexivity].
  destruct raw as [v|]; [|reflexivity].
  cbn [validators_call truthy filled andb].
  destruct v as [|c r]; [reflexivity|].
  cbn [String.eqb negb andb].
  destruct (String.eqb (strip (String c r)) ""); reflexivity.
Qed.

Lemma CommentForm_validate env req :
  validate_on_submit env req (instantiate CommentForm [] req)
  = is_submitted req && filled (getfirst (form req) "comment_text")
    && csrf_valid req.
Proof.
  unfold validate_on_submit, validate, instantiate, CommentForm, FlaskForm.
  cbn [app fmap list_fmap forallb ftype decl kwarg String.eqb].
  rewrite DataRequired_text by exact I.
  destruct (is_submitted req), (filled (getfirst (form req) "comment_text")),
    (csrf_valid req); reflexivity.
Qed.

Lemma RegisterForm_validate env req :
  validate_on_submit env req (instantiate RegisterForm [] req)
  = is_submitted req && filled (getfirst (form req) "email")
    && filled (getfirst (form req) "password")
    && filled (getfirst (form req) "name") && csrf_valid req.
Proof.
  unfold validate_on_submit, validate, instantiate, RegisterForm, FlaskForm.
  cbn [app fmap list_fmap forallb ftype decl kwarg String.eqb].
  rewrite !DataRequired_text by exact I.
  destruct (is_submitted req), (filled (getfirst (form req) "email")),
    (filled (getfirst (form req) "password")),
    (filled (getfirst (form req) "name")), (csrf_valid req); reflexivity.
Qed.

Lemma LoginForm_validate env req :
  validate_on_submit env req (instantiate LoginForm [] req)
  = is_submitted req && filled (getfirst (form req) "email")
    && filled (getfirst (form req) "password") && csrf_valid req.
Proof.
  unfold validate_on_submit, validate, instantiate, LoginForm, FlaskForm.
  cbn [app fmap list_fmap forallb ftype decl kwarg String.eqb].
  rewrite !DataRequired_text by exact I.
  destruct (is_submitted req), (filled (getfirst (form req) "email")),
    (filled (getfirst (form req) "password")), (csrf_valid req); reflexivity.
Qed.




(** ** Comments of logged-in users *)

Lemma filled_Some raw : filled raw = true -> ∃ v, raw = Some v ∧ strip v ≠ "".
Proof.
  destruct raw as [v|]; [|discriminate]. intros H. exists v. split; [reflexivity|].
  intros E. unfold filled in H. rewrite E in H. discriminate H.
Qed.

(** The one path of [show_cafe] that writes. *)
Lemma show_cafe_logged_in_valid env id u req cafe_id cafe s :
  cafelist (db s) !! cafe_id = Some cafe ->
  validate_on_submit env req (instantiate CommentForm [] req) = true ->
  ∃ text,
    getfirst (form req) "comment_text" = Some text
    ∧ comments (db s) !! next_id (comments (db s)) = None
    ∧ show_cafe env (LoggedIn id u) req cafe_id s =
      (Ok (Render "cafe.html"
             [("cafe", TCafe cafe_id cafe);
              ("current_user", TUser (LoggedIn id u));
              ("form", TFields (form_data (instantiate CommentForm [] req)))]),
       mkState
         (mkDB (cafelist (db s)) (users (db s))
            (<[next_id (comments (db s)) :=
                 Comment.mk (PyStr text) (Some id) (Some cafe_id)]>
               (comments (db s))))
         (flashes s) (outbox s)).
Proof.
  intros Hc Hv. pose proof Hv as Hv'. rewrite CommentForm_validate in Hv'.
  apply andb_true_iff in Hv' as [Hv' _].
  apply andb_true_iff in Hv' as [Hsub Hfilled].
  apply filled_Some in Hfilled as (text & Htext & _).
  exists text. split; [exact Htext|]. split; [apply next_id_fresh|].
  unfold show_cafe. cbv zeta.
  rewrite (bind_ok _ _ s cafe s) by (apply get_or_404_found; exact Hc).
  rewrite Hv. cbn [is_authenticated negb].
  unfold getattr, instantiate, CommentForm, FlaskForm.
  cbn [app fmap list_fmap lookup_field String.eqb]. rewrite Hsub, Htext.
  reflexivity.
Qed.

(** X2. A logged-in user's valid comment on an existing entry is stored as
    one new row under a key that was free, holding the submitted text, the
    user's identifier and the entry's; every other row of the three tables
    is as before, and the entry page is rendered. *)
Theorem show_cafe_stores_comment env id u req cafe_id cafe s :
  cafelist (db s) !! cafe_id = Some cafe ->
  validate_on_submit env req (instantiate CommentForm [] req) = true ->
  ∃ text,
    getfirst (form req) "comment_text" = Some text
    ∧ comments (db s) !! next_id (comments (db s)) = None
    ∧ show_cafe env (LoggedIn id u) req cafe_id s =
      (Ok (Render "cafe.html"
             [("cafe", TCafe cafe_id cafe);
              ("current_user", TUser (LoggedIn id u));
              ("form", TFields (form_data (instantiate CommentForm [] req)))]),
       mkState
         (mkDB (cafelist (db s)) (users (db s))
            (<[next_id (comments (db s)) :=
                 Comment.mk (PyStr text) (Some id) (Some cafe_id)]>
               (comments (db s))))
         (flashes s) (outbox s)).
Proof. exact (show_cafe_logged_in_valid env id u req cafe_id cafe s). Qed.

(** Alice comments on entry 1: the comment lands under key 3. *)
Lemma show_cafe_stores_comment_witness :
  ∃ text,
    getfirst (form Scenario.comment_post) "comment_text" = Some text
    ∧ comments (db Scenario.start) !! next_id (comments (db Scenario.start))
      = None
    ∧ comments
        (db (show_cafe Scenario.env (LoggedIn 2 Scenario.alice)
               Scenario.comment_post 1 Scenario.start).2) !! 3
      = Some (Comment.mk (PyStr text) (Some 2) (Some 1)).
Proof.
  destruct (show_cafe_stores_comment Scenario.env 2 Scenario.alice
              Scenario.comment_post 1 Scenario.corner Scenario.start
              eq_refl eq_refl) as (text & Htext & Hfresh & Hrun).
  exists text. split; [exact Htext|]. split; [exact Hfresh|].
  rewrite Hrun. injection Htext as <-. reflexivity.
Defined.

(** X3. A comment whose text is missing, empty or only white space is never
    stored, whoever submits it: the database after [show_cafe] is the
    database before. *)
Theorem show_cafe_blank_comment_ignored env cu req cafe_id s :
  filled (getfirst (form req) "comment_text") = false ->
  (show_cafe env cu req cafe_id s).2 = s
  ∧ ∀ cafe,
      cafelist (db s) !! cafe_id = Some cafe ->
      (show_cafe env cu req cafe_id s).1 =
      Ok (Render "cafe.html"
            [("cafe", TCafe cafe_id cafe); ("current_user", TUser cu);
             ("form", TFields (form_data (instantiate CommentForm [] req)))]).
Proof.
  intros Hblank.
  assert (Hv : validate_on_submit env req (instantiate CommentForm [] req)
               = false).
  { rewrite CommentForm_validate, Hblank. rewrite andb_false_r. reflexivity. }
  unfold show_cafe. cbv zeta.
  destruct (cafelist (db s) !! cafe_id) as [cafe|] eqn:E.
  - rewrite (bind_ok _ _ s cafe s) by (apply get_or_404_found; exact E).
    rewrite Hv. split; [reflexivity|]. intros cafe' [= <-]. reflexivity.
  - rewrite (bind_abort _ _ s 404 s) by (apply get_or_404_missing; exact E).
    split; [reflexivity|]. intros cafe' [=].
Qed.

(** Alice submits three blanks as a comment. *)
Lemma show_cafe_blank_comment_ignored_witness :
  (show_cafe Scenario.env (LoggedIn 2 Scenario.alice)
     (Signup.comment_text_post "   ") 1 Scenario.start).2
  = Scenario.start.
Proof.
  apply (show_cafe_blank_comment_ignored Scenario.env
           (LoggedIn 2 Scenario.alice) (Signup.comment_text_post "   ") 1
           Scenario.start).
  reflexivity.
Defined.

(** The database after [show_cafe]: as before, or with the one comment of a
    logged-in user on an existing entry added under a free key. *)
Lemma show_cafe_db env cu req cafe_id s :
  db (show_cafe env cu req cafe_id s).2 = db s
  ∨ ∃ id u cafe text,
      cu = LoggedIn id u
      ∧ cafelist (db s) !! cafe_id = Some cafe
      ∧ comments (db s) !! next_id (comments (db s)) = None
      ∧ db (show_cafe env cu req cafe_id s).2 =
        mkDB (cafelist (db s)) (users (db s))
          (<[next_id (comments (db s)) :=
               Comment.mk (PyStr text) (Some id) (Some cafe_id)]>
             (comments (db s))).
Proof.
  destruct cu as [|id u].
  - left. rewrite show_cafe_anonymous.
    destruct (cafelist (db s) !! cafe_id); [|reflexivity].
    destruct (validate_on_submit env req (instantiate CommentForm [] req));
      reflexivity.
  - destruct (cafelist (db s) !! cafe_id) as [cafe|] eqn:E.
    + destruct (validate_on_submit env req (instantiate CommentForm [] req))
        eqn:Hv.
      * right.
        destruct (show_cafe_logged_in_valid env id u req cafe_id cafe s E Hv)
          as (text & _ & Hfresh & Hrun).
        exists id, u, cafe, text. rewrite Hrun. auto.
      * left. unfold show_cafe. cbv zeta.
        rewrite (bind_ok _ _ s cafe s) by (apply get_or_404_found; exact E).
        rewrite Hv. reflexivity.
    + left. unfold show_cafe.
      rewrite (bind_abort _ _ s 404 s) by (apply get_or_404_missing; exact E).
      reflexivity.
Qed.

(** ** Missing entries and missing logins *)



(** X5. Without a login the entry forms answer 401, on GET and on POST
    alike and before the entry is looked up, so that even an identifier that
    names no entry gives 401 rather than 404; nothing changes. *)
Theorem anonymous_entry_forms_unauthorized env req cafe_id s :
  add_new_cafe env AnonymousUserMixin req s = (Abort 401, s)
  ∧ edit_cafe env AnonymousUserMixin req cafe_id s = (Abort 401, s)
  ∧ http_status (edit_cafe env AnonymousUserMixin req cafe_id s).1 = 401.
Proof. repeat split. Qed.

(** X6. The edit route never changes anything: whoever asks, whatever the
    request and the entry, the state after [edit_cafe] is the state
    before. *)
Theorem edit_cafe_changes_nothing env cu req cafe_id s :
  (edit_cafe env cu req cafe_id s).2 = s.
Proof.
  destruct (cafelist (db s) !! cafe_id) as [cafe|] eqn:E.
  - rewrite (edit_cafe_run env cu req cafe_id cafe s E). reflexivity.
  - unfold edit_cafe, login_required.
    destruct (is_authenticated cu); [|reflexivity].
    rewrite (bind_abort _ _ s 404 s) by (apply get_or_404_missing; exact E).
    reflexivity.
Qed.

(** ** Deleting, again *)

(** X7. After the super-admin deleted an entry, the index lists exactly the
    other entries, each as it was; the users are untouched; and a second
    delete of the same identifier is answered 404 and changes nothing. *)
Theorem delete_cafe_then_index u cu cafe_id cafe s :
  cafelist (db s) !! cafe_id = Some cafe ->
  ∃ s' page,
    delete_cafe (LoggedIn 1 u) cafe_id s = (Ok (Redirect "cafelist" []), s')
    ∧ Routes.cafelist cu s' = (Ok page, s')
    ∧ (∀ k c, (k, c) ∈ all_cafes page
              ↔ k ≠ cafe_id ∧ cafelist (db s) !! k = Some c)
    ∧ users (db s') = users (db s)
    ∧ delete_cafe (LoggedIn 1 u) cafe_id s' = (Abort 404, s').
Proof.
  intros Hc. eexists. eexists.
  split; [apply (delete_cafe_super_admin u cafe_id cafe s Hc)|].
  split; [reflexivity|].
  split; [|split; [reflexivity|]].
  - intros k c. cbn [all_cafes db cafelist].
    rewrite elem_of_map_to_list.
    destruct (decide (k = cafe_id)) as [->|Hne].
    + rewrite lookup_delete_eq. split; [discriminate|]. intros [H _].
      contradiction.
    + rewrite lookup_delete_ne by auto. tauto.
  - unfold delete_cafe. rewrite admin_only_logged_in. cbn [Z.eqb Pos.eqb].
    erewrite bind_abort; [reflexivity|].
    apply get_or_404_missing. cbn [db cafelist]. apply lookup_delete_eq.
Qed.

(** The super-admin deletes entry 1: the index shows entry 2 only. *)
Lemma delete_cafe_then_index_witness :
  ∃ s' page,
    delete_cafe (LoggedIn 1 Scenario.root) 1 Scenario.start
    = (Ok (Redirect "cafelist" []), s')
    ∧ Routes.cafelist AnonymousUserMixin s' = (Ok page, s')
    ∧ (2, Scenario.joes) ∈ all_cafes page
    ∧ (1, Scenario.corner) ∉ all_cafes page.
Proof.
  destruct (delete_cafe_then_index Scenario.root AnonymousUserMixin 1
              Scenario.corner Scenario.start eq_refl)
    as (s' & page & Hdel & Hidx & Hlist & _).
  exists s', page. split; [exact Hdel|]. split; [exact Hidx|]. split.
  - apply Hlist. split; [lia | reflexivity].
  - intros Hin. apply Hlist in Hin as [Hne _]. apply Hne. reflexivity.
Defined.

(** X8. Deleting keeps the comments linked: if every comment's author is a
    user and every comment's parent, when it has one, is an entry, the same
    holds after [delete_cafe], whoever asked and whatever came of it; the
    comments of a deleted entry are left without a parent, not with a
    dangling one. *)
Theorem delete_cafe_keeps_comments_linked cu cafe_id s :
  comments_linked (db s) ->
  comments_linked (db (delete_cafe cu cafe_id s).2).
Proof.
  intros Hok.
  destruct cu as [|id u]; [exact Hok|].
  unfold delete_cafe. rewrite admin_only_logged_in.
  destruct (id =? 1) eqn:Hid; [|exact Hok].
  apply Z.eqb_eq in Hid. subst id.
  destruct (cafelist (db s) !! cafe_id) as [cafe|] eqn:E.
  - pose proof (delete_cafe_super_admin u cafe_id cafe s E) as Hrun.
    unfold delete_cafe in Hrun. rewrite admin_only_logged_in in Hrun.
    cbn [Z.eqb Pos.eqb] in Hrun. rewrite Hrun. cbn [snd db].
    intros k c' Hk. cbn [comments users cafelist] in *.
    rewrite lookup_fmap in Hk.
    destruct (comments (db s) !! k) as [c|] eqn:Ek; [|discriminate].
    injection Hk as <-. destruct (Hok k c Ek) as [Hauthor Hparent].
    unfold is_child. destruct (bool_decide (Comment.cafe_id c = Some cafe_id))
      eqn:Hchild.
    + split; [exact Hauthor|]. intros p [=].
    + apply bool_decide_eq_false in Hchild.
      split; [exact Hauthor|]. intros p Hp.
      rewrite lookup_delete_ne by congruence. exact (Hparent p Hp).
  - rewrite (bind_abort _ _ s 404 s) by (apply get_or_404_missing; exact E).
    exact Hok.
Qed.

Lemma scenario_comments_linked : comments_linked Scenario.store.
Proof.
  intros k c Hk. unfold Scenario.store in Hk. cbn [comments] in Hk.
  destruct (decide (k = 1)) as [->|H1].
  - injection Hk as <-. split; intros x [= <-]; eexists; reflexivity.
  - destruct (decide (k = 2)) as [->|H2].
    + injection Hk as <-. split; intros x [= <-]; eexists; reflexivity.
    + rewrite lookup_insert_ne in Hk by auto.
      rewrite lookup_singleton_ne in Hk by auto. discriminate.
Defined.

(** The scenario's store is linked, and stays so when entry 1 goes. *)
Lemma delete_cafe_keeps_comments_linked_witness :
  comments_linked
    (db (delete_cafe (LoggedIn 1 Scenario.root) 1 Scenario.start).2).
Proof.
  apply (delete_cafe_keeps_comments_linked (LoggedIn 1 Scenario.root) 1
           Scenario.start).
  exact scenario_comments_linked.
Defined.

(** X9. Commenting keeps the comments linked: for a user the session
    resolved through [load_user], the store after [show_cafe] has every
    comment's author among the users and every parent among the entries,
    if the store before had. *)
Theorem show_cafe_keeps_comments_linked env session cu req cafe_id s :
  current_user session s = (Ok cu, s) ->
  comments_linked (db s) ->
  comments_linked (db (show_cafe env cu req cafe_id s).2).
Proof.
  intros Hcu Hok.
  destruct (show_cafe_db env cu req cafe_id s)
    as [-> | (id & u & cafe & text & -> & Hcafe & Hfresh & ->)];
    [exact Hok|].
  pose proof (current_user_loaded session id u s Hcu) as Hu.
  intros k c Hk. cbn [comments users cafelist] in *.
  destruct (decide (next_id (comments (db s)) = k)) as [<-|Hne].
  - rewrite lookup_insert_eq in Hk. injection Hk as <-.
    split; intros x [= <-]; eauto.
  - rewrite lookup_insert_ne in Hk by exact Hne. exact (Hok k c Hk).
Qed.

(** Alice, logged in through her session, comments on entry 1. *)
Lemma show_cafe_keeps_comments_linked_witness :
  comments_linked
    (db (show_cafe Scenario.env (LoggedIn 2 Scenario.alice)
           Scenario.comment_post 1 Scenario.start).2).
Proof.
  apply (show_cafe_keeps_comments_linked Scenario.env (Some 2)
           (LoggedIn 2 Scenario.alice) Scenario.comment_post 1
           Scenario.start).
  - reflexivity.
  - exact scenario_comments_linked.
Defined.

(** ** Registering *)

Lemma getfirst_filled req key :
  filled (getfirst (form req) key) = true ->
  ∃ v, getfirst (form req) key = Some v.
Proof. intros H. apply filled_Some in H as (v & Hv & _). eauto. Qed.

Lemma add_commit_user_ok u s :
  email_taken (users (db s)) (User.email u) = false ->
  add_commit_user u s =
  (Ok (next_id (users (db s))),
   mkState
     (mkDB (cafelist (db s)) (<[next_id (users (db s)) := u]> (users (db s)))
        (comments (db s)))
     (flashes s) (outbox s)).
Proof.
  intros H. unfold add_commit_user.
  rewrite (bind_ok _ _ s (db s) s) by reflexivity. rewrite H. reflexivity.
Qed.

(** [register], path by path: the form again; the duplicate; the new row. *)
Lemma register_cases env wz cu session req s :
  (validate_on_submit env req (instantiate RegisterForm [] req) = false
   ∧ Routes.register env wz cu session req s =
     (Ok (Render "register.html"
            [("form", TFields (form_data (instantiate RegisterForm [] req)));
             ("current_user", TUser cu)], session), s))
  ∨ (∃ e k u,
       validate_on_submit env req (instantiate RegisterForm [] req) = true
       ∧ getfirst (form req) "email" = Some e
       ∧ select_user_by_email (db s) (PyStr e) = Some (k, u)
       ∧ Routes.register env wz cu session req s =
         (Ok (Redirect "login" [], session),
          mkState (db s)
            (flashes s ++
             ["You've already signed up with that email, log in instead!"])
            (outbox s)))
  ∨ (∃ e p n,
       validate_on_submit env req (instantiate RegisterForm [] req) = true
       ∧ getfirst (form req) "email" = Some e
       ∧ getfirst (form req) "password" = Some p
       ∧ getfirst (form req) "name" = Some n
       ∧ select_user_by_email (db s) (PyStr e) = None
       ∧ Routes.register env wz cu session req s =
         (Ok (Redirect "cafelist" [], Some (next_id (users (db s)))),
          mkState
            (mkDB (cafelist (db s))
               (<[next_id (users (db s)) :=
                    User.mk (PyStr e) (PyStr (generate_password_hash wz p))
                      (PyStr n)]> (users (db s)))
               (comments (db s)))
            (flashes s) (outbox s))).
Proof.
  destruct (validate_on_submit env req (instantiate RegisterForm [] req))
    eqn:Hv.
  2:{ left. split; [reflexivity|]. unfold Routes.register. cbv zeta.
      rewrite Hv. reflexivity. }
  right. pose proof Hv as Hv'. rewrite RegisterForm_validate in Hv'.
  apply andb_true_iff in Hv' as [Hv' _].
  apply andb_true_iff in Hv' as [Hv' Hn].
  apply andb_true_iff in Hv' as [Hv' Hp].
  apply andb_true_iff in Hv' as [Hsub He].
  apply getfirst_filled in He as [e He].
  apply getfirst_filled in Hp as [p Hp].
  apply getfirst_filled in Hn as [n Hn].
  assert (Hrun : Routes.register env wz cu session req s =
    match select_user_by_email (db s) (PyStr e) with
    | Some _ =>
        (Ok (Redirect "login" [], session),
         mkState (db s)
           (flashes s ++
            ["You've already signed up with that email, log in instead!"])
           (outbox s))
    | None =>
        (add_commit_user
           (User.mk (PyStr e) (PyStr (generate_password_hash wz p)) (PyStr n))
         ≫= (fun new_user_id => mret (Redirect "cafelist" [], Some new_user_id)))
          s
    end).
  { unfold Routes.register. cbv zeta. rewrite Hv.
    unfold getattr, instantiate, RegisterForm, FlaskForm.
    cbn [app fmap list_fmap lookup_field String.eqb Ascii.eqb Bool.eqb
         ftype decl kwarg process_field].
    rewrite Hsub, He, Hp, Hn.
    rewrite (bind_ok _ _ s _ s) by reflexivity. cbn [data].
    rewrite (bind_ok _ _ s (db s) s) by reflexivity.
    destruct (select_user_by_email (db s) (PyStr e)); reflexivity. }
  destruct (select_user_by_email (db s) (PyStr e)) as [[k u]|] eqn:Hsel.
  - left. exists e, k, u. auto.
  - right. exists e, p, n. repeat (split; [assumption || reflexivity|]).
    rewrite Hrun.
    erewrite bind_ok;
      [reflexivity | apply add_commit_user_ok, email_taken_false, Hsel].
Qed.

(** X10. Registering with an email that a user already has stores nothing
    and logs nobody in: the visitor is told to log in instead and sent to
    the login page, the database and the session as they were. *)
Theorem register_duplicate_email env wz cu session req s e k u :
  validate_on_submit env req (instantiate RegisterForm [] req) = true ->
  getfirst (form req) "email" = Some e ->
  users (db s) !! k = Some u ->
  User.email u = PyStr e ->
  Routes.register env wz cu session req s =
  (Ok (Redirect "login" [], session),
   mkState (db s)
     (flashes s ++
      ["You've already signed up with that email, log in instead!"])
     (outbox s)).
Proof.
  intros Hv He Hk Hu.
  destruct (register_cases env wz cu session req s)
    as [[Hv' _] | [(e' & k' & u' & _ & _ & _ & Hrun)
                  | (e' & p & n & _ & He' & _ & _ & Hnone & _)]].
  - congruence.
  - exact Hrun.
  - exfalso. rewrite He in He'. injection He' as <-.
    exact (select_user_by_email_None (db s) (PyStr e) k u Hnone Hk Hu).
Qed.

(** Someone registers with Alice's email. *)
Lemma register_duplicate_email_witness :
  Routes.register Scenario.env Signup.hasher AnonymousUserMixin None
    (Signup.register_post "a@x.com" "secret" "Alice II") Scenario.start
  = (Ok (Redirect "login" [], None),
     mkState Scenario.store
       ["You've already signed up with that email, log in instead!"] []).
Proof.
  apply (register_duplicate_email Scenario.env Signup.hasher
           AnonymousUserMixin None
           (Signup.register_post "a@x.com" "secret" "Alice II")
           Scenario.start "a@x.com" 2 Scenario.alice); reflexivity.
Defined.

(** X11. A valid registration with an email no user has stores exactly one
    new row, under a key that was free: the email, the name and, as
    password, the hash [generate_password_hash] returned, never the
    password itself unless the hash function returns it.  The session then
    holds the new key, which [load_user] resolves to the new row; the other
    tables are untouched and the answer is the redirect to the index. *)
Theorem register_new_user env wz cu session req s e :
  validate_on_submit env req (instantiate RegisterForm [] req) = true ->
  getfirst (form req) "email" = Some e ->
  (∀ k u, users (db s) !! k = Some u -> User.email u ≠ PyStr e) ->
  ∃ p n s',
    getfirst (form req) "password" = Some p
    ∧ getfirst (form req) "name" = Some n
    ∧ users (db s) !! next_id (users (db s)) = None
    ∧ Routes.register env wz cu session req s =
      (Ok (Redirect "cafelist" [], Some (next_id (users (db s)))), s')
    ∧ users (db s') =
      <[next_id (users (db s)) :=
          User.mk (PyStr e) (PyStr (generate_password_hash wz p)) (PyStr n)]>
        (users (db s))
    ∧ cafelist (db s') = cafelist (db s)
    ∧ comments (db s') = comments (db s)
    ∧ current_user (Some (next_id (users (db s)))) s' =
      (Ok (LoggedIn (next_id (users (db s)))
             (User.mk (PyStr e) (PyStr (generate_password_hash wz p))
                (PyStr n))), s').
Proof.
  intros Hv He0 Hfresh.
  destruct (register_cases env wz cu session req s)
    as [[Hv' _] | [(e' & k & u & _ & He & Hsel & _)
                  | (e' & p & n & _ & He & Hp & Hn & Hnone & Hrun)]].
  - congruence.
  - exfalso. rewrite He0 in He. injection He as <-.
    apply select_user_by_email_Some in Hsel as [Hk Hu].
    exact (Hfresh k u Hk Hu).
  - rewrite He0 in He. injection He as <-.
    exists p, n. eexists. repeat (split; [eassumption|]).
    split; [apply next_id_fresh|]. split; [exact Hrun|].
    repeat (split; [reflexivity|]).
    cbn [current_user]. unfold load_user.
    erewrite bind_ok; [reflexivity|].
    apply get_or_404_found. cbn [db users]. apply lookup_insert_eq.
Qed.

(** Bo registers: the third user. *)
Lemma register_new_user_witness :
  ∃ s',
    Routes.register Scenario.env Signup.hasher AnonymousUserMixin None
      (Signup.register_post "bo@x.com" "secret" "Bo") Scenario.start
    = (Ok (Redirect "cafelist" [], Some 3), s')
    ∧ users (db s') !! 3 =
      Some (User.mk (PyStr "bo@x.com") (PyStr "pbkdf2:sha256$secret")
              (PyStr "Bo")).
Proof.
  destruct (register_new_user Scenario.env Signup.hasher AnonymousUserMixin
              None (Signup.register_post "bo@x.com" "secret" "Bo")
              Scenario.start "bo@x.com" eq_refl eq_refl)
    as (p & n & s' & Hp & Hn & _ & Hrun & Husers & _).
  - intros k u Hk. cbn [Scenario.start db Scenario.store users] in Hk.
    destruct (decide (k = 1)) as [->|H1]; [injection Hk as <-; discriminate|].
    destruct (decide (k = 2)) as [->|H2]; [injection Hk as <-; discriminate|].
    rewrite lookup_insert_ne in Hk by auto.
    rewrite lookup_singleton_ne in Hk by auto. discriminate.
  - exists s'. split; [exact Hrun|]. rewrite Husers.
    injection Hp as <-. injection Hn as <-. reflexivity.
Defined.


Lemma scenario_emails_unique : emails_unique Scenario.store.
Proof.
  intros k1 k2 u1 u2 H1 H2 Heq _. cbn [Scenario.store users] in H1, H2.
  destruct (decide (k1 = 1)) as [->|A1]; destruct (decide (k2 = 1)) as [->|B1];
    try reflexivity.
  - injection H1 as <-.
    destruct (decide (k2 = 2)) as [->|B2].
    + injection H2 as <-. discriminate Heq.
    + rewrite lookup_insert_ne in H2 by auto.
      rewrite lookup_singleton_ne in H2 by auto. discriminate.
  - injection H2 as <-.
    destruct (decide (k1 = 2)) as [->|A2].
    + injection H1 as <-. discriminate Heq.
    + rewrite lookup_insert_ne in H1 by auto.
      rewrite lookup_singleton_ne in H1 by auto. discriminate.
  - destruct (decide (k1 = 2)) as [->|A2]; destruct (decide (k2 = 2)) as [->|B2];
      try reflexivity.
    + rewrite lookup_insert_ne in H2 by auto.
      rewrite lookup_singleton_ne in H2 by auto. discriminate.
    + rewrite lookup_insert_ne in H1 by auto.
      rewrite lookup_singleton_ne in H1 by auto. discriminate.
    + rewrite lookup_insert_ne in H1 by auto.
      rewrite lookup_singleton_ne in H1 by auto. discriminate.
Defined.


(** ** Logging in *)

(** Under unique emails the lookup by email finds the user who has it. *)
Lemma select_user_by_email_unique d e id u :
  emails_unique d ->
  users d !! id = Some u -> User.email u = PyStr e ->
  select_user_by_email d (PyStr e) = Some (id, u).
Proof.
  intros Huniq Hid He.
  destruct (select_user_by_email_is_Some d (PyStr e) id u Hid He)
    as [[k u'] Hsel].
  rewrite Hsel. apply select_user_by_email_Some in Hsel as [Hk Hu'].
  assert (k = id) as ->.
  { apply (Huniq k id u' u Hk Hid); [congruence|]. rewrite Hu'. discriminate. }
  congruence.
Qed.

(** [login], path by path. *)
Lemma login_cases env wz cu session req s :
  (validate_on_submit env req (instantiate LoginForm [] req) = false
   ∧ Routes.login env wz cu session req s =
     (Ok (Render "login.html"
            [("form", TFields (form_data (instantiate LoginForm [] req)));
             ("current_user", TUser cu)], session), s))
  ∨ (∃ e p,
       validate_on_submit env req (instantiate LoginForm [] req) = true
       ∧ getfirst (form req) "email" = Some e
       ∧ getfirst (form req) "password" = Some p
       ∧ Routes.login env wz cu session req s =
         match select_user_by_email (db s) (PyStr e) with
         | None =>
             (Ok (Redirect "login" [], session),
              mkState (db s)
                (flashes s ++ ["That email does not exist, please try again."])
                (outbox s))
         | Some (id, u) =>
             match User.password u with
             | PyStr h =>
                 if check_password_hash wz h p
                 then (Ok (Redirect "cafelist" [], Some id), s)
                 else (Ok (Redirect "login" [], session),
                       mkState (db s)
                         (flashes s ++
                          ["Password incorrect, please try again."])
                         (outbox s))
             | _ => (Raise (AttributeError "NoneType" "count"), s)
             end
         end).
Proof.
  destruct (validate_on_submit env req (instantiate LoginForm [] req)) eqn:Hv.
  2:{ left. split; [reflexivity|]. unfold Routes.login. cbv zeta.
      rewrite Hv. reflexivity. }
  right. pose proof Hv as Hv'. rewrite LoginForm_validate in Hv'.
  apply andb_true_iff in Hv' as [Hv' _].
  apply andb_true_iff in Hv' as [Hv' Hp].
  apply andb_true_iff in Hv' as [Hsub He].
  apply getfirst_filled in He as [e He].
  apply getfirst_filled in Hp as [p Hp].
  exists e, p. repeat (split; [assumption || reflexivity|]).
  unfold Routes.login. cbv zeta. rewrite Hv.
  unfold getattr, instantiate, LoginForm, FlaskForm.
  cbn [app fmap list_fmap lookup_field String.eqb Ascii.eqb Bool.eqb
       ftype decl kwarg process_field].
  rewrite Hsub, He, Hp.
  rewrite (bind_ok _ _ s _ s) by reflexivity.
  rewrite (bind_ok _ _ s _ s) by reflexivity. cbn [data].
  rewrite (bind_ok _ _ s (db s) s) by reflexivity.
  destruct (select_user_by_email (db s) (PyStr e)) as [[id u]|];
    [|reflexivity].
  destruct (User.password u) as [|h| |]; try reflexivity.
  unfold check_password. rewrite (bind_ok _ _ s _ s) by reflexivity.
  destruct (check_password_hash wz h p); reflexivity.
Qed.

(** X13. Logging in never writes to the database, and it changes the
    session in one case only: to the key of a user who has the submitted
    email and whose stored hash [check_password_hash] accepts for the
    submitted password. *)
Theorem login_sound env wz cu session req s resp session' s' :
  Routes.login env wz cu session req s = (Ok (resp, session'), s') ->
  db s' = db s
  ∧ (session' = session
     ∨ ∃ id u e p h,
         session' = Some id
         ∧ users (db s) !! id = Some u
         ∧ getfirst (form req) "email" = Some e
         ∧ User.email u = PyStr e
         ∧ getfirst (form req) "password" = Some p
         ∧ User.password u = PyStr h
         ∧ check_password_hash wz h p = true).
Proof.
  destruct (login_cases env wz cu session req s)
    as [[_ Hrun] | (e & p & _ & He & Hp & Hrun)]; rewrite Hrun; clear Hrun.
  - intros [= <- <- <-]. auto.
  - destruct (select_user_by_email (db s) (PyStr e)) as [[id u]|] eqn:Hsel.
    + apply select_user_by_email_Some in Hsel as [Hid Hu].
      destruct (User.password u) as [|h| |] eqn:Hpw; try discriminate.
      destruct (check_password_hash wz h p) eqn:Hcheck.
      * intros [= <- <- <-]. split; [reflexivity|]. right.
        exists id, u, e, p, h. auto 10.
      * intros [= <- <- <-]. auto.
    + intros [= <- <- <-]. auto.
Qed.

(** Alice logs in with her password. *)
Lemma login_sound_witness :
  db Scenario.start = db Scenario.start
  ∧ (Some 2 = None
     ∨ ∃ id u e p h,
         Some 2 = Some id
         ∧ users (db Scenario.start) !! id = Some u
         ∧ getfirst (form (Signup.login_post "a@x.com" "a")) "email" = Some e
         ∧ User.email u = PyStr e
         ∧ getfirst (form (Signup.login_post "a@x.com" "a")) "password"
           = Some p
         ∧ User.password u = PyStr h
         ∧ check_password_hash Signup.hasher h p = true).
Proof.
  apply (login_sound Scenario.env Signup.hasher AnonymousUserMixin None
           (Signup.login_post "a@x.com" "a") Scenario.start
           (Redirect "cafelist" []) (Some 2) Scenario.start).
  reflexivity.
Defined.

(** X14. With unique emails, a valid login submission for the email of a
    user is decided by [check_password_hash] on that user's stored hash
    alone: accepted, the session holds the user's key and the answer is the
    redirect to the index; refused, the visitor is told the password is
    incorrect and sent back to the login page, the session as it was. *)
Theorem login_known_email env wz cu session req s id u e p h :
  emails_unique (db s) ->
  users (db s) !! id = Some u ->
  User.email u = PyStr e ->
  User.password u = PyStr h ->
  validate_on_submit env req (instantiate LoginForm [] req) = true ->
  getfirst (form req) "email" = Some e ->
  getfirst (form req) "password" = Some p ->
  Routes.login env wz cu session req s =
  if check_password_hash wz h p
  then (Ok (Redirect "cafelist" [], Some id), s)
  else (Ok (Redirect "login" [], session),
        mkState (db s)
          (flashes s ++ ["Password incorrect, please try again."])
          (outbox s)).
Proof.
  intros Huniq Hid Hemail Hpw Hv He Hp.
  destruct (login_cases env wz cu session req s)
    as [[Hv' _] | (e' & p' & _ & He' & Hp' & Hrun)]; [congruence|].
  rewrite He in He'. injection He' as <-.
  rewrite Hp in Hp'. injection Hp' as <-.
  rewrite Hrun.
  rewrite (select_user_by_email_unique (db s) e id u Huniq Hid Hemail).
  rewrite Hpw. reflexivity.
Qed.

(** Alice with the right password, and with a wrong one. *)
Lemma login_known_email_witness :
  Routes.login Scenario.env Signup.hasher AnonymousUserMixin None
    (Signup.login_post "a@x.com" "a") Scenario.start
  = (Ok (Redirect "cafelist" [], Some 2), Scenario.start)
  ∧ Routes.login Scenario.env Signup.hasher AnonymousUserMixin None
      (Signup.login_post "a@x.com" "b") Scenario.start
    = (Ok (Redirect "login" [], None),
       mkState Scenario.store ["Password incorrect, please try again."] []).
Proof.
  split.
  - apply (login_known_email Scenario.env Signup.hasher AnonymousUserMixin
             None (Signup.login_post "a@x.com" "a") Scenario.start 2
             Scenario.alice "a@x.com" "a" "pbkdf2:sha256$a");
      try reflexivity.
    exact scenario_emails_unique.
  - apply (login_known_email Scenario.env Signup.hasher AnonymousUserMixin
             None (Signup.login_post "a@x.com" "b") Scenario.start 2
             Scenario.alice "a@x.com" "b" "pbkdf2:sha256$a");
      try reflexivity.
    exact scenario_emails_unique.
Defined.

(** X15. A valid login submission for an email no user has logs nobody in:
    the visitor is told the email does not exist and sent back to the login
    page, whatever the password; the database and the session stay. *)
Theorem login_unknown_email env wz cu session req s e :
  validate_on_submit env req (instantiate LoginForm [] req) = true ->
  getfirst (form req) "email" = Some e ->
  (∀ k u, users (db s) !! k = Some u -> User.email u ≠ PyStr e) ->
  Routes.login env wz cu session req s =
  (Ok (Redirect "login" [], session),
   mkState (db s)
     (flashes s ++ ["That email does not exist, please try again."])
     (outbox s)).
Proof.
  intros Hv He Hnone.
  destruct (login_cases env wz cu session req s)
    as [[Hv' _] | (e' & p' & _ & He' & Hp' & Hrun)]; [congruence|].
  rewrite He in He'. injection He' as <-. rewrite Hrun.
  destruct (select_user_by_email (db s) (PyStr e)) as [[id u]|] eqn:Hsel;
    [|reflexivity].
  exfalso. apply select_user_by_email_Some in Hsel as [Hid Hu].
  exact (Hnone id u Hid Hu).
Qed.

Lemma scenario_no_such_email e k u :
  e ≠ "root@x.com" -> e ≠ "a@x.com" ->
  users (db Scenario.start) !! k = Some u -> User.email u ≠ PyStr e.
Proof.
  intros Hr Ha Hk. cbn [Scenario.start db Scenario.store users] in Hk.
  destruct (decide (k = 1)) as [->|H1].
  { injection Hk as <-. intros H. apply Hr.
    change (PyStr "root@x.com" = PyStr e) in H. injection H as <-.
    reflexivity. }
  destruct (decide (k = 2)) as [->|H2].
  { injection Hk as <-. intros H. apply Ha.
    change (PyStr "a@x.com" = PyStr e) in H. injection H as <-.
    reflexivity. }
  rewrite lookup_insert_ne in Hk by auto.
  rewrite lookup_singleton_ne in Hk by auto. discriminate.
Defined.

(** Nobody has registered as bo@x.com. *)
Lemma login_unknown_email_witness :
  Routes.login Scenario.env Signup.hasher AnonymousUserMixin None
    (Signup.login_post "bo@x.com" "secret") Scenario.start
  = (Ok (Redirect "login" [], None),
     mkState Scenario.store
       ["That email does not exist, please try again."] []).
Proof.
  apply (login_unknown_email Scenario.env Signup.hasher AnonymousUserMixin
           None (Signup.login_post "bo@x.com" "secret") Scenario.start
           "bo@x.com"); [reflexivity | reflexivity |].
  intros k u. apply scenario_no_such_email; discriminate.
Defined.

(** X16. Register, then log in.  If [check_password_hash] accepts the hash
    [generate_password_hash] made of a password, then after a valid
    registration with a new email, a valid login submission with the same
    email and password logs in the user just registered: the session holds
    the key the registration gave. *)
Theorem register_then_login env wz cu session req s cu' session' req' e p :
  check_password_hash wz (generate_password_hash wz p) p = true ->
  validate_on_submit env req (instantiate RegisterForm [] req) = true ->
  getfirst (form req) "email" = Some e ->
  getfirst (form req) "password" = Some p ->
  (∀ k u, users (db s) !! k = Some u -> User.email u ≠ PyStr e) ->
  validate_on_submit env req' (instantiate LoginForm [] req') = true ->
  getfirst (form req') "email" = Some e ->
  getfirst (form req') "password" = Some p ->
  ∃ id s',
    Routes.register env wz cu session req s
    = (Ok (Redirect "cafelist" [], Some id), s')
    ∧ Routes.login env wz cu' session' req' s'
      = (Ok (Redirect "cafelist" [], Some id), s').
Proof.
  intros Hlaw Hv He Hp Hfresh Hv' He' Hp'.
  destruct (register_cases env wz cu session req s)
    as [[Hf _] | [(e1 & k & u & _ & He1 & Hsel & _)
                 | (e1 & p1 & n & _ & He1 & Hp1 & _ & Hnone & Hrun)]].
  - congruence.
  - exfalso. rewrite He in He1. injection He1 as <-.
    apply select_user_by_email_Some in Hsel as [Hk Hu].
    exact (Hfresh k u Hk Hu).
  - rewrite He in He1. injection He1 as <-.
    rewrite Hp in Hp1. injection Hp1 as <-.
    eexists. eexists. split; [exact Hrun|].
    match goal with
    | |- Routes.login _ _ _ _ _ ?st = _ => set (s' := st)
    end.
    destruct (login_cases env wz cu' session' req' s')
      as [[Hf _] | (e2 & p2 & _ & He2 & Hp2 & Hlogin)]; [congruence|].
    rewrite He' in He2. injection He2 as <-.
    rewrite Hp' in Hp2. injection Hp2 as <-.
    rewrite Hlogin.
    set (new_user :=
           User.mk (PyStr e) (PyStr (generate_password_hash wz p)) (PyStr n)).
    assert (Hnew : users (db s') !! next_id (users (db s)) = Some new_user)
      by apply lookup_insert_eq.
    destruct (select_user_by_email_is_Some (db s') (PyStr e) _ new_user Hnew
                eq_refl) as [[k u] Hsel].
    rewrite Hsel. apply select_user_by_email_Some in Hsel as [Hk Hu].
    destruct (decide (next_id (users (db s)) = k)) as [<-|Hne].
    + rewrite Hnew in Hk. injection Hk as <-.
      cbn [User.password new_user]. rewrite Hlaw. reflexivity.
    + exfalso. subst s'. cbn [db users] in Hk.
      rewrite lookup_insert_ne in Hk by exact Hne.
      exact (select_user_by_email_None (db s) (PyStr e) k u Hnone Hk Hu).
Qed.

(** Bo registers and logs in. *)
Lemma register_then_login_witness :
  ∃ id s',
    Routes.register Scenario.env Signup.hasher AnonymousUserMixin None
      (Signup.register_post "bo@x.com" "secret" "Bo") Scenario.start
    = (Ok (Redirect "cafelist" [], Some id), s')
    ∧ Routes.login Scenario.env Signup.hasher AnonymousUserMixin None
        (Signup.login_post "bo@x.com" "secret") s'
      = (Ok (Redirect "cafelist" [], Some id), s').
Proof.
  apply (register_then_login Scenario.env Signup.hasher AnonymousUserMixin
           None (Signup.register_post "bo@x.com" "secret" "Bo")
           Scenario.start AnonymousUserMixin None
           (Signup.login_post "bo@x.com" "secret") "bo@x.com" "secret");
    try reflexivity.
  intros k u. apply scenario_no_such_email; discriminate.
Defined.

(** ** Requests that are not acted on *)

Lemma validate_on_submit_gate env req cls kwargs :
  method req = GET ∨ csrf_valid req = false ->
  validate_on_submit env req (instantiate (cls ++ FlaskForm) kwargs req)
  = false.
Proof.
  intros [Hget | Hcsrf]; unfold validate_on_submit.
  - unfold is_submitted. rewrite Hget. reflexivity.
  - apply andb_false_iff. right. unfold validate, instantiate.
    rewrite fmap_app, forallb_app. apply andb_false_iff. right.
    cbn [FlaskForm fmap list_fmap forallb ftype decl]. rewrite Hcsrf.
    reflexivity.
Qed.

(** X17. A request that is not a POST, or whose CSRF token Flask-WTF
    rejects, is never acted on by the form handlers: [register] and [login]
    show their form again and leave the session and the state alone,
    [show_cafe] stores no comment, and the entry forms store nothing. *)
Theorem unsubmitted_or_forged_changes_nothing env wz cu session req cafe_id s :
  method req = GET ∨ csrf_valid req = false ->
  Routes.register env wz cu session req s =
    (Ok (Render "register.html"
           [("form", TFields (form_data (instantiate RegisterForm [] req)));
            ("current_user", TUser cu)], session), s)
  ∧ Routes.login env wz cu session req s =
    (Ok (Render "login.html"
           [("form", TFields (form_data (instantiate LoginForm [] req)));
            ("current_user", TUser cu)], session), s)
  ∧ (show_cafe env cu req cafe_id s).2 = s
  ∧ (add_new_cafe env cu req s).2 = s
  ∧ (edit_cafe env cu req cafe_id s).2 = s.
Proof.
  intros Hgate.
  split; [|split; [|split; [|split]]].
  - destruct (register_cases env wz cu session req s)
      as [[_ Hrun] | [(e & k & u & Hv & _) | (e & p & n & Hv & _)]];
      [exact Hrun | |];
      unfold RegisterForm in Hv;
      rewrite (validate_on_submit_gate env req _ [] Hgate) in Hv;
      discriminate.
  - destruct (login_cases env wz cu session req s)
      as [[_ Hrun] | (e & p & Hv & _)]; [exact Hrun|].
    unfold LoginForm in Hv.
    rewrite (validate_on_submit_gate env req _ [] Hgate) in Hv. discriminate.
  - unfold show_cafe. cbv zeta.
    destruct (cafelist (db s) !! cafe_id) as [cafe|] eqn:E.
    + rewrite (bind_ok _ _ s cafe s) by (apply get_or_404_found; exact E).
      unfold CommentForm.
      rewrite (validate_on_submit_gate env req _ [] Hgate). reflexivity.
    + rewrite (bind_abort _ _ s 404 s) by (apply get_or_404_missing; exact E).
      reflexivity.
  - rewrite add_new_cafe_run. reflexivity.
  - destruct (cafelist (db s) !! cafe_id) as [cafe|] eqn:E.
    + rewrite (edit_cafe_run env cu req cafe_id cafe s E). reflexivity.
    + unfold edit_cafe, login_required.
      destruct (is_authenticated cu); [|reflexivity].
      rewrite (bind_abort _ _ s 404 s) by (apply get_or_404_missing; exact E).
      reflexivity.
Qed.

(** A registration whose CSRF token is rejected. *)
Lemma unsubmitted_or_forged_changes_nothing_witness :
  (Routes.register Scenario.env Signup.hasher AnonymousUserMixin None
     (mkRequest POST
        [("email", "bo@x.com"); ("password", "secret"); ("name", "Bo")] false)
     Scenario.start).2 = Scenario.start
  ∧ (show_cafe Scenario.env (LoggedIn 2 Scenario.alice)
       (mkRequest POST [("comment_text", "Lovely place")] false) 1
       Scenario.start).2 = Scenario.start.
Proof.
  destruct (unsubmitted_or_forged_changes_nothing Scenario.env Signup.hasher
              AnonymousUserMixin None
              (mkRequest POST
                 [("email", "bo@x.com"); ("password", "secret");
                  ("name", "Bo")] false)
              1 Scenario.start (or_intror eq_refl)) as (Hreg & _).
  destruct (unsubmitted_or_forged_changes_nothing Scenario.env Signup.hasher
              (LoggedIn 2 Scenario.alice) None
              (mkRequest POST [("comment_text", "Lovely place")] false)
              1 Scenario.start (or_intror eq_refl)) as (_ & _ & Hshow & _).
  split; [rewrite Hreg; reflexivity | exact Hshow].
Defined.

(** ** The contact form, again *)

(** The mail [send_email] hands to the relay. *)
Lemma send_email_state env name email phone message s :
  (send_email env name email phone message s).2 =
  mkState (db s) (flashes s)
    match connect (smtp env) "smtp.gmail.com", starttls (smtp env),
          login (smtp env) (MAIL_ADDRESS env) (MAIL_APP_PW env),
          sendmail (smtp env) (MAIL_ADDRESS env) (MAIL_APP_PW env)
            (email_text name email phone message)
    with
    | None, None, None, None =>
        outbox s ++
        [mkMail (MAIL_ADDRESS env) (MAIL_APP_PW env)
           (email_text name email phone message)]
    | _, _, _, _ => outbox s
    end.
Proof.
  unfold send_email, with_connection.
  rewrite bind_run.
  destruct (connect (smtp env) "smtp.gmail.com"); simpl;
    [destruct s; reflexivity|].
  rewrite bind_run.
  destruct (starttls (smtp env)); simpl.
  { destruct (quit (smtp env)); destruct s; reflexivity. }
  rewrite bind_run.
  destruct (login (smtp env) (MAIL_ADDRESS env) (MAIL_APP_PW env)); simpl.
  { destruct (quit (smtp env)); destruct s; reflexivity. }
  rewrite bind_run.
  destruct (sendmail (smtp env) (MAIL_ADDRESS env) (MAIL_APP_PW env)
              (email_text name email phone message)); simpl;
    destruct (quit (smtp env)); destruct s; reflexivity.
Qed.

(** X18. The contact handler talks to the relay only for a POST that
    carries all four inputs: a GET renders the form without the confirmation,
    and a POST that lacks the name, the email, the phone or the message is
    answered 400; in both cases no mail is sent and nothing changes, whatever
    the relay would have done. *)
Theorem contact_without_relay env req s :
  (method req = GET ->
   contact env req s =
   (Ok (Render "contact.html" [("msg_sent", TBool false)]), s))
  ∧ (method req = POST ->
     getfirst (form req) "name" = None
     ∨ getfirst (form req) "email" = None
     ∨ getfirst (form req) "phone" = None
     ∨ getfirst (form req) "message" = None ->
     contact env req s = (Abort 400, s)).
Proof.
  split.
  - intros Hget. unfold contact. rewrite Hget. reflexivity.
  - intros Hpost Hmissing. unfold contact, form_item. rewrite Hpost.
    destruct (getfirst (form req) "name") as [n|]; [|reflexivity].
    rewrite bind_run. cbn [mret M_ret].
    destruct (getfirst (form req) "email") as [e|]; [|reflexivity].
    rewrite bind_run. cbn [mret M_ret].
    destruct (getfirst (form req) "phone") as [p|]; [|reflexivity].
    rewrite bind_run. cbn [mret M_ret].
    destruct (getfirst (form req) "message") as [m|]; [|reflexivity].
    exfalso. destruct Hmissing as [H|[H|[H|H]]]; discriminate H.
Qed.

(** A message without a phone number, the relay being down or not. *)
Lemma contact_without_relay_witness :
  contact Scenario.env_relay_down
    (mkRequest POST [("name", "Bo"); ("email", "bo@x.com"); ("message", "Hi")]
       false)
    Scenario.start
  = (Abort 400, Scenario.start)
  ∧ contact Scenario.env (mkRequest GET [] false) Scenario.start
    = (Ok (Render "contact.html" [("msg_sent", TBool false)]),
       Scenario.start).
Proof.
  split.
  - apply (contact_without_relay Scenario.env_relay_down
             (mkRequest POST
                [("name", "Bo"); ("email", "bo@x.com"); ("message", "Hi")]
                false) Scenario.start); [reflexivity|].
    right. right. left. reflexivity.
  - apply (contact_without_relay Scenario.env (mkRequest GET [] false)
             Scenario.start). reflexivity.
Defined.

(** X19. What a contact submission with all four inputs leaves behind: the
    database and the flashed messages as they were, and one more mail at the
    relay exactly when connecting, STARTTLS, login and sending all went
    through.  That mail is sent from the configured address to the value of
    the second setting, [MAIL_APP_PW], and its text is the fixed layout of
    the four inputs.  A QUIT that fails after the mail went out still makes
    the handler raise. *)
Theorem contact_outbox env req s name email phone message :
  method req = POST ->
  getfirst (form req) "name" = Some name ->
  getfirst (form req) "email" = Some email ->
  getfirst (form req) "phone" = Some phone ->
  getfirst (form req) "message" = Some message ->
  db (contact env req s).2 = db s
  ∧ flashes (contact env req s).2 = flashes s
  ∧ outbox (contact env req s).2 =
    match connect (smtp env) "smtp.gmail.com", starttls (smtp env),
          login (smtp env) (MAIL_ADDRESS env) (MAIL_APP_PW env),
          sendmail (smtp env) (MAIL_ADDRESS env) (MAIL_APP_PW env)
            (email_text name email phone message)
    with
    | None, None, None, None =>
        outbox s ++
        [mkMail (MAIL_ADDRESS env) (MAIL_APP_PW env)
           (email_text name email phone message)]
    | _, _, _, _ => outbox s
    end
  ∧ (∀ e, connect (smtp env) "smtp.gmail.com" = None ->
          quit (smtp env) = Some e ->
          (contact env req s).1 = Raise e).
Proof.
  intros Hm Hn He Hp Hmsg.
  assert (Hrun : contact env req s =
    match send_email env name email phone message s with
    | (Ok _, s') => (Ok (Render "contact.html" [("msg_sent", TBool true)]), s')
    | (Abort c, s') => (Abort c, s')
    | (Raise e, s') => (Raise e, s')
    end).
  { unfold contact, form_item. rewrite Hm, Hn, He, Hp, Hmsg.
    do 4 (rewrite bind_run; cbn [mret M_ret]).
    rewrite bind_run.
    destruct (send_email env name email phone message s) as [[[]|c|e] s'];
      reflexivity. }
  assert (Hstate : (contact env req s).2 =
                   (send_email env name email phone message s).2).
  { rewrite Hrun.
    destruct (send_email env name email phone message s) as [[[]|c|e] s'];
      reflexivity. }
  rewrite Hstate, send_email_state. cbn [db flashes outbox].
  repeat (split; [reflexivity|]).
  intros e Hconn Hquit. rewrite Hrun.
  pose proof (send_email_run env name email phone message s) as Hs.
  unfold relay_failure in Hs. rewrite Hconn, Hquit in Hs.
  destruct (send_email env name email phone message s) as [[[]|c|e'] s'];
    cbn [fst] in Hs; try discriminate. injection Hs as ->. reflexivity.
Qed.

(** The relay up: one mail, addressed to the second setting. *)
Lemma contact_outbox_witness :
  outbox (contact Scenario.env Scenario.contact_post Scenario.start).2
  = [mkMail (PyStr "cafes@example.com") (PyStr "app-password")
       (email_text "Bo" "bo@x.com" "043" "Hi")]
  ∧ outbox
      (contact Scenario.env_relay_down Scenario.contact_post Scenario.start).2
    = [].
Proof.
  destruct (contact_outbox Scenario.env Scenario.contact_post Scenario.start
              "Bo" "bo@x.com" "043" "Hi" eq_refl eq_refl eq_refl eq_refl
              eq_refl) as (_ & _ & Hup & _).
  destruct (contact_outbox Scenario.env_relay_down Scenario.contact_post
              Scenario.start "Bo" "bo@x.com" "043" "Hi" eq_refl eq_refl
              eq_refl eq_refl eq_refl) as (_ & _ & Hdown & _).
  split; [rewrite Hup | rewrite Hdown]; reflexivity.
Defined.

(** ** Accounts are kept *)

Lemma contact_db env req s : db (contact env req s).2 = db s.
Proof.
  unfold contact, form_item. destruct (method req); [reflexivity|].
  destruct (getfirst (form req) "name") as [n|]; [|reflexivity].
  rewrite bind_run. cbn [mret M_ret].
  destruct (getfirst (form req) "email") as [e|]; [|reflexivity].
  rewrite bind_run. cbn [mret M_ret].
  destruct (getfirst (form req) "phone") as [p|]; [|reflexivity].
  rewrite bind_run. cbn [mret M_ret].
  destruct (getfirst (form req) "message") as [m|]; [|reflexivity].
  rewrite bind_run. cbn [mret M_ret]. rewrite bind_run.
  pose proof (send_email_state env n e p m s) as Hs.
  destruct (send_email env n e p m s) as [[[]|c|x] s']; cbn [snd] in *;
    rewrite Hs; reflexivity.
Qed.

Lemma keeps_users_same_db s s' : db s' = db s -> keeps_users s s'.
Proof. intros H k u Hk. rewrite H. exact Hk. Qed.

Lemma register_keeps_users env wz cu session req s :
  keeps_users s (Routes.register env wz cu session req s).2.
Proof.
  destruct (register_cases env wz cu session req s)
    as [[_ Hrun] | [(e & k & u & _ & _ & _ & Hrun)
                   | (e & p & n & _ & _ & _ & _ & _ & Hrun)]];
    rewrite Hrun; try (apply keeps_users_same_db; reflexivity).
  intros k u Hk. cbn [snd db users].
  rewrite lookup_insert_ne; [exact Hk|].
  intros <-. rewrite next_id_fresh in Hk. discriminate.
Qed.

Lemma login_db env wz cu session req s :
  db (Routes.login env wz cu session req s).2 = db s.
Proof.
  destruct (login_cases env wz cu session req s)
    as [[_ Hrun] | (e & p & _ & _ & _ & Hrun)]; rewrite Hrun; [reflexivity|].
  destruct (select_user_by_email (db s) (PyStr e)) as [[id u]|];
    [|reflexivity].
  destruct (User.password u) as [|h| |]; try reflexivity.
  destruct (check_password_hash wz h p); reflexivity.
Qed.

Lemma delete_cafe_users cu cafe_id s :
  users (db (delete_cafe cu cafe_id s).2) = users (db s).
Proof.
  destruct cu as [|id u]; [reflexivity|].
  unfold delete_cafe. rewrite admin_only_logged_in.
  destruct (id =? 1) eqn:Hid; [|reflexivity].
  destruct (cafelist (db s) !! cafe_id) as [cafe|] eqn:E.
  - rewrite (bind_ok _ _ s cafe s) by (apply get_or_404_found; exact E).
    reflexivity.
  - rewrite (bind_abort _ _ s 404 s) by (apply get_or_404_missing; exact E).
    reflexivity.
Qed.

(** X20. No handler removes or alters an account: every row of [users]
    before a request is there, unchanged, after it, whichever of the
    handlers served the request and whatever it answered.  Registration only
    adds a row; nothing else writes the table. *)
Theorem handlers_keep_users env wz cu session req cafe_id s :
  keeps_users s (Routes.register env wz cu session req s).2
  ∧ keeps_users s (Routes.login env wz cu session req s).2
  ∧ keeps_users s (show_cafe env cu req cafe_id s).2
  ∧ keeps_users s (add_new_cafe env cu req s).2
  ∧ keeps_users s (edit_cafe env cu req cafe_id s).2
  ∧ keeps_users s (delete_cafe cu cafe_id s).2
  ∧ keeps_users s (contact env req s).2.
Proof.
  split; [apply register_keeps_users|].
  split; [apply keeps_users_same_db, login_db|].
  split.
  { destruct (show_cafe_db env cu req cafe_id s)
      as [H | (id & u & cafe & text & _ & _ & _ & H)];
      intros k x Hk; rewrite H; exact Hk. }
  split; [apply keeps_users_same_db; rewrite add_new_cafe_run; reflexivity|].
  split.
  { apply keeps_users_same_db.
    destruct (cafelist (db s) !! cafe_id) as [cafe|] eqn:E.
    - rewrite (edit_cafe_run env cu req cafe_id cafe s E). reflexivity.
    - unfold edit_cafe, login_required.
      destruct (is_authenticated cu); [|reflexivity].
      rewrite (bind_abort _ _ s 404 s) by (apply get_or_404_missing; exact E).
      reflexivity. }
  split.
  { intros k u Hk. rewrite delete_cafe_users. exact Hk. }
  apply keeps_users_same_db, contact_db.
Qed.

(** X21. A session only ever names a stored user: if the identifier in the
    session before [register], [login] or [logout] names a row of [users],
    so does the identifier in the session after, in the state after; hence
    [load_user] finds the user of every session these handlers leave. *)
Theorem sessions_stay_valid env wz cu session req s :
  session_valid s session ->
  (∀ r session' s',
     Routes.register env wz cu session req s = (Ok (r, session'), s') ->
     session_valid s' session')
  ∧ (∀ r session' s',
       Routes.login env wz cu session req s = (Ok (r, session'), s') ->
       session_valid s' session')
  ∧ (∀ r session' s',
       Routes.logout session s = (Ok (r, session'), s') ->
       session_valid s' session').
Proof.
  intros Hvalid. split; [|split].
  - intros r session' s' Hrun.
    pose proof (register_keeps_users env wz cu session req s) as Hkeep.
    destruct (register_cases env wz cu session req s)
      as [[_ Hc] | [(e & k & u & _ & _ & _ & Hc)
                   | (e & p & n & _ & _ & _ & _ & _ & Hc)]];
      rewrite Hc in Hrun, Hkeep; injection Hrun as <- <- <-.
    + exact Hvalid.
    + exact Hvalid.
    + intros id [= <-]. cbn [db users]. rewrite lookup_insert_eq. eauto.
  - intros r session' s' Hrun.
    destruct (login_cases env wz cu session req s)
      as [[_ Hc] | (e & p & _ & _ & _ & Hc)]; rewrite Hc in Hrun.
    + injection Hrun as <- <- <-. exact Hvalid.
    + destruct (select_user_by_email (db s) (PyStr e)) as [[id u]|] eqn:Hsel.
      * apply select_user_by_email_Some in Hsel as [Hid _].
        destruct (User.password u) as [|h| |]; try discriminate.
        destruct (check_password_hash wz h p); injection Hrun as <- <- <-.
        -- intros id' [= <-]. eauto.
        -- exact Hvalid.
      * injection Hrun as <- <- <-. exact Hvalid.
  - intros r session' s' [= <- <- <-]. intros id [=].
Qed.

(** Alice's login leaves a session that names her row. *)
Lemma sessions_stay_valid_witness :
  session_valid Scenario.start (Some 2).
Proof.
  destruct (sessions_stay_valid Scenario.env Signup.hasher AnonymousUserMixin
              None (Signup.login_post "a@x.com" "a") Scenario.start)
    as (_ & Hlogin & _).
  - intros id [=].
  - apply (Hlogin (Redirect "cafelist" []) (Some 2) Scenario.start).
    reflexivity.
Defined.
